(** * show_pickle: a shallow embedding of [torch/utils/show_pickle.py]

    The development follows the Python source top to bottom:
    [FakeObject], [FakeClass], [DumpUnpickler] (with the opcode handlers
    of the host interpreter that the claims exercise) and [main].

    Python values live in a small universe [Value]; [FakeObject]
    instances are mutable, so they live in an explicit heap and are
    referred to by location.  Exceptions are results, never partiality. *)

From Stdlib Require Import ZArith List Ascii Bool Lia.
From Stdlib.Strings Require Import Byte.
From stdpp Require Import base option list strings gmap.

Local Open Scope Z_scope.

(** ** Python strings and byte strings *)

(** A Python [str] is a sequence of code points (lone surrogates
    included); a [bytes] object is a sequence of octets. *)
Abbreviation pystr := (list Z) (only parsing).
Abbreviation pybytes := (list byte) (only parsing).

(** Literal ASCII text as a Python [str]. *)
Definition py (s : string) : pystr :=
  map (fun a => Z.of_N (N_of_ascii a)) (String.list_ascii_of_string s).

(** Literal ASCII text as a Python [bytes]. *)
Definition pyb (s : string) : pybytes := String.list_byte_of_string s.

(** The integer value of an octet, [bs[i]] in Python. *)
Definition bv (b : byte) : Z := Z.of_N (Byte.to_N b).

(** An octet from an integer in range (used to write streams down). *)
Definition octet (z : Z) : byte :=
  match Byte.of_N (Z.to_N z) with Some b => b | None => x00 end.

Definition len {A} (l : list A) : Z := Z.of_nat (length l).

(** [c in s] for a one-character needle. *)
Definition contains (c : Z) (s : pystr) : bool := existsb (Z.eqb c) s.

(** [s.split(sep, 1)] for a one-character separator that occurs in [s]:
    the text before the first separator and everything after it.  When
    the separator is absent Python returns the one-element list [[s]]. *)
Fixpoint split_once (sep : Z) (s : pystr) : option (pystr * pystr) :=
  match s with
  | [] => None
  | c :: rest =>
      if c =? sep then Some ([], rest)
      else match split_once sep rest with
           | Some (a, b) => Some (c :: a, b)
           | None => None
           end
  end.

(** Decimal and hexadecimal rendering used by exception messages. *)
Definition digit_char (d : Z) : Z :=
  if d <? 10 then 48 + d else 87 + d.

Fixpoint decimal_digits (fuel : nat) (n : Z) (acc : pystr) : pystr :=
  match fuel with
  | O => acc
  | S k =>
      let acc' := digit_char (n mod 10) :: acc in
      if n <? 10 then acc' else decimal_digits k (n / 10) acc'
  end.

(** ["%d" % n] for non-negative [n]. *)
Definition decimal (n : Z) : pystr :=
  decimal_digits (S (Z.to_nat (Z.log2 n))) n [].

(** ["%02x" % b] for an octet value. *)
Definition hex2 (b : Z) : pystr :=
  [digit_char (Z.shiftr b 4); digit_char (Z.land b 15)].

(** ** The UTF-8 codec of the host

    [str(b, "utf-8", errors)] is the host's decoder.  The model follows
    its structure: a strict one-character decoder that reports how far
    a malformed sequence reaches, the [surrogatepass] error handler that
    is consulted at such a position, and the loop over the input. *)

Inductive Utf8Reason :=
| InvalidStartByte
| InvalidContinuationByte
| UnexpectedEndOfData.

Definition reason_text (r : Utf8Reason) : pystr :=
  match r with
  | InvalidStartByte => py "invalid start byte"
  | InvalidContinuationByte => py "invalid continuation byte"
  | UnexpectedEndOfData => py "unexpected end of data"
  end.

(** The attributes of a [UnicodeDecodeError] that its message uses. *)
Record UnicodeDecodeError := mkUDE {
  ude_byte : Z;            (* object[start] *)
  ude_start : Z;
  ude_end : Z;
  ude_reason : Utf8Reason
}.

(** [str(exn)] for a [UnicodeDecodeError] of the utf-8 codec. *)
Definition str_exn (e : UnicodeDecodeError) : pystr :=
  if ude_end e =? ude_start e + 1 then
    py "'utf-8' codec can't decode byte 0x" ++ hex2 (ude_byte e)
      ++ py " in position " ++ decimal (ude_start e)
      ++ py ": " ++ reason_text (ude_reason e)
  else
    py "'utf-8' codec can't decode bytes in position "
      ++ decimal (ude_start e) ++ py "-" ++ decimal (ude_end e - 1)
      ++ py ": " ++ reason_text (ude_reason e).

Inductive Utf8Step :=
| Utf8Char (cp : Z) (extra : nat)
    (* a code point, and how many continuation bytes it used *)
| Utf8Fail (span : Z) (reason : Utf8Reason).
    (* the error covers [start, start + span) *)

Definition is_continuation (b : Z) : bool := (128 <=? b) && (b <? 192).

(** Strict decoding of the character that starts with [ch]; [rest] is
    the input after [ch]. *)
Definition utf8_decode_one (ch : Z) (rest : pybytes) : Utf8Step :=
  if ch <? 128 then Utf8Char ch 0
  else if ch <? 224 then
    if ch <? 194 then Utf8Fail 1 InvalidStartByte
    else match rest with
         | [] => Utf8Fail 1 UnexpectedEndOfData
         | b2 :: _ =>
             let ch2 := bv b2 in
             if negb (is_continuation ch2) then Utf8Fail 1 InvalidContinuationByte
             else Utf8Char (Z.shiftl ch 6 + ch2 - (Z.shiftl 192 6 + 128)) 1
         end
  else if ch <? 240 then
    match rest with
    | [] => Utf8Fail 1 UnexpectedEndOfData
    | [b2] =>
        let ch2 := bv b2 in
        if negb (is_continuation ch2)
           || (if ch2 <? 160 then ch =? 224 else ch =? 237)
        then Utf8Fail 1 InvalidContinuationByte
        else Utf8Fail 2 UnexpectedEndOfData
    | b2 :: b3 :: _ =>
        let ch2 := bv b2 in
        let ch3 := bv b3 in
        if negb (is_continuation ch2) then Utf8Fail 1 InvalidContinuationByte
        else if (ch =? 224) && (ch2 <? 160) then Utf8Fail 1 InvalidContinuationByte
        else if (ch =? 237) && (160 <=? ch2) then Utf8Fail 1 InvalidContinuationByte
        else if negb (is_continuation ch3) then Utf8Fail 2 InvalidContinuationByte
        else Utf8Char (Z.shiftl ch 12 + Z.shiftl ch2 6 + ch3
                       - (Z.shiftl 224 12 + Z.shiftl 128 6 + 128)) 2
    end
  else if ch <? 245 then
    match rest with
    | [] => Utf8Fail 1 UnexpectedEndOfData
    | b2 :: rest2 =>
        let ch2 := bv b2 in
        match rest2 with
        | [] =>
            if negb (is_continuation ch2)
               || (if ch2 <? 144 then ch =? 240 else ch =? 244)
            then Utf8Fail 1 InvalidContinuationByte
            else Utf8Fail 2 UnexpectedEndOfData
        | [b3] =>
            if negb (is_continuation ch2)
               || (if ch2 <? 144 then ch =? 240 else ch =? 244)
            then Utf8Fail 1 InvalidContinuationByte
            else if negb (is_continuation (bv b3))
            then Utf8Fail 2 InvalidContinuationByte
            else Utf8Fail 3 UnexpectedEndOfData
        | b3 :: b4 :: _ =>
            let ch3 := bv b3 in
            let ch4 := bv b4 in
            if negb (is_continuation ch2) then Utf8Fail 1 InvalidContinuationByte
            else if (ch =? 240) && (ch2 <? 144) then Utf8Fail 1 InvalidContinuationByte
            else if (ch =? 244) && (144 <=? ch2) then Utf8Fail 1 InvalidContinuationByte
            else if negb (is_continuation ch3) then Utf8Fail 2 InvalidContinuationByte
            else if negb (is_continuation ch4) then Utf8Fail 3 InvalidContinuationByte
            else Utf8Char (Z.shiftl ch 18 + Z.shiftl ch2 12 + Z.shiftl ch3 6 + ch4
                           - (Z.shiftl 240 18 + Z.shiftl 128 12
                              + Z.shiftl 128 6 + 128)) 3
        end
    end
  else Utf8Fail 1 InvalidStartByte.

Definition is_surrogate (cp : Z) : bool := (55296 <=? cp) && (cp <=? 57343).

(** The [surrogatepass] handler at an error position: three bytes that
    spell a surrogate in the three-byte form are accepted as that
    surrogate, anything else re-raises the error. *)
Definition surrogatepass (ch : Z) (rest : pybytes) : option Z :=
  match rest with
  | b2 :: b3 :: _ =>
      let p1 := bv b2 in
      let p2 := bv b3 in
      if (Z.land ch 240 =? 224) && (Z.land p1 192 =? 128) && (Z.land p2 192 =? 128)
      then
        let cp := Z.shiftl (Z.land ch 15) 12 + Z.shiftl (Z.land p1 63) 6 + Z.land p2 63 in
        if is_surrogate cp then Some cp else None
      else None
  | _ => None
  end.

Inductive ErrorsMode := Strict | SurrogatePass.

Inductive DecodeResult :=
| Decoded (s : pystr)
| DecodeFailed (e : UnicodeDecodeError).

(** The decoding loop.  [skip] counts continuation bytes of the current
    character that are still to be stepped over, [pos] is the index of
    the head of [bs] in the whole input. *)
Fixpoint utf8_loop (errors : ErrorsMode) (skip : nat) (pos : Z)
    (bs : pybytes) (acc : pystr) : DecodeResult :=
  match bs with
  | [] => Decoded (rev acc)
  | b :: rest =>
      match skip with
      | S k => utf8_loop errors k (pos + 1) rest acc
      | O =>
          match utf8_decode_one (bv b) rest with
          | Utf8Char cp extra => utf8_loop errors extra (pos + 1) rest (cp :: acc)
          | Utf8Fail span reason =>
              let exn := mkUDE (bv b) pos (pos + span) reason in
              match errors with
              | Strict => DecodeFailed exn
              | SurrogatePass =>
                  match surrogatepass (bv b) rest with
                  | Some cp => utf8_loop errors 2 (pos + 1) rest (cp :: acc)
                  | None => DecodeFailed exn
                  end
              end
          end
      end
  end.

(** [str(bs, "utf-8", errors)]. *)
Definition utf8_decode (errors : ErrorsMode) (bs : pybytes) : DecodeResult :=
  utf8_loop errors 0 0 bs [].

(** [chr(cp).encode("utf-8", "surrogatepass")] for one code point. *)
Definition utf8_encode_char (cp : Z) : pybytes :=
  if cp <? 128 then [octet cp]
  else if cp <? 2048 then
    [octet (192 + Z.shiftr cp 6); octet (128 + Z.land cp 63)]
  else if cp <? 65536 then
    [octet (224 + Z.shiftr cp 12);
     octet (128 + Z.land (Z.shiftr cp 6) 63);
     octet (128 + Z.land cp 63)]
  else
    [octet (240 + Z.shiftr cp 18);
     octet (128 + Z.land (Z.shiftr cp 12) 63);
     octet (128 + Z.land (Z.shiftr cp 6) 63);
     octet (128 + Z.land cp 63)].

(** [struct.unpack("<I", bs)]: exactly four octets, little endian. *)
Definition unpack_le32 (bs : pybytes) : option Z :=
  match bs with
  | [b0; b1; b2; b3] =>
      Some (bv b0 + Z.shiftl (bv b1) 8 + Z.shiftl (bv b2) 16 + Z.shiftl (bv b3) 24)
  | _ => None
  end.

(** [struct.pack("<I", n)]. *)
Definition pack_le32 (n : Z) : pybytes :=
  [octet (Z.land n 255); octet (Z.land (Z.shiftr n 8) 255);
   octet (Z.land (Z.shiftr n 16) 255); octet (Z.land (Z.shiftr n 24) 255)].

(** [bs[:n]] and [bs[n:]] for [n >= 0], without going through [nat]. *)
Fixpoint take {A} (n : Z) (l : list A) : list A :=
  match l with
  | [] => []
  | x :: r => if n <=? 0 then [] else x :: take (n - 1) r
  end.

Fixpoint drop_z {A} (n : Z) (l : list A) : list A :=
  match l with
  | [] => []
  | x :: r => if n <=? 0 then l else drop_z (n - 1) r
  end.

(** ** Exceptions and outcomes *)

Inductive PyExn :=
| Exception (msg : pystr)
| UnicodeDecodeErrorExn (e : UnicodeDecodeError)
| StructError
| IndexError
| TypeError
| ValueError
| EOFError
| UnpicklingError
| KeyError (key : pystr)
| FileNotFoundError (path : pystr)
| BadZipFile.

(** What the embedding leaves out of the host interpreter. *)
Inductive ModelLimit :=
| OtherOpcode (op : byte)     (* an opcode whose handler is not embedded *)
| BuildWithoutSetstate        (* BUILD on something that is not a FakeObject *)
| FuelExhausted.

Inductive Outcome (A : Type) :=
| Ok (a : A)
| Raise (e : PyExn)
| Beyond (w : ModelLimit).
Arguments Ok {A} a.
Arguments Raise {A} e.
Arguments Beyond {A} w.

#[global] Instance Outcome_ret : MRet Outcome := fun A a => Ok a.

#[global] Instance Outcome_bind : MBind Outcome := fun A B k m =>
  match m with
  | Ok a => k a
  | Raise e => Raise e
  | Beyond w => Beyond w
  end.

(** ** The placeholder value model *)

Module FakeClass.
Record t := mk { module : pystr; name : pystr }.
End FakeClass.

(** The values that flow through the operand stack.  A [FakeObject] is
    mutable and may be aliased (stack, memo, other objects), so a value
    holds its heap location. *)
Inductive Value :=
| VNone
| VBool (b : bool)
| VInt (n : Z)
| VStr (s : pystr)
| VTuple (items : list Value)
| VClass (c : FakeClass.t)
| VObj (loc : nat).

Definition is_none (v : Value) : bool :=
  match v with VNone => true | _ => false end.

Module FakeObject.
Record t := mk {
  module : pystr;
  name : pystr;
  args : list Value;      (* always a tuple *)
  state : Value
}.

(** [FakeObject.__init__] *)
Definition __init__ (module name : pystr) (args : list Value) : t :=
  mk module name args VNone.

(** [FakeObject.__setstate__]: the object after [self.state = state]. *)
Definition __setstate__ (self : t) (state : Value) : t :=
  mk (module self) (name self) (args self) state.
End FakeObject.

(** [FakeClass.__call__] *)
Definition FakeClass___call__ (self : FakeClass.t) (args : list Value) : FakeObject.t :=
  FakeObject.__init__ (FakeClass.module self) (FakeClass.name self) args.

(** [FakeClass.fake_new]: [args[1:]] drops the first element, and is
    the empty tuple when there is none. *)
Definition fake_new (self : FakeClass.t) (args : list Value) : FakeObject.t :=
  FakeObject.__init__ (FakeClass.module self) (FakeClass.name self) (tail args).

(** [cls.__new__(cls, *args)]: [__new__] is the instance attribute set
    in [FakeClass.__init__], the bound method [self.fake_new], so the
    class token arrives as the first positional argument. *)
Definition FakeClass___new__ (cls : FakeClass.t) (args : list Value) : FakeObject.t :=
  fake_new cls (VClass cls :: args).

(** ** Rendering *)

Section Rendering.
(** The host's [repr] on values and the pretty printer are outside the
    repository; [pp_format] only calls them. *)
Variable repr : Value -> pystr.

(** An output stream is the sequence of texts written to it. *)
Abbreviation Stream := (list pystr) (only parsing).

Variable Context : Type.

Record Printer := mkPrinter {
  _format : Value -> Stream -> Z -> Z -> Context -> Z -> Stream * Outcome unit;
  _indent_per_level : Z
}.

(** [FakeObject.__repr__] *)
Definition FakeObject___repr__ (self : FakeObject.t) : pystr :=
  let state_str :=
    if is_none (FakeObject.state self) then []
    else py "(state=" ++ repr (FakeObject.state self) ++ py ")" in
  FakeObject.module self ++ py "." ++ FakeObject.name self
    ++ repr (VTuple (FakeObject.args self)) ++ state_str.

(** [" " * indent] *)
Definition spaces (indent : Z) : pystr := repeat 32 (Z.to_nat indent).

(** A tuple is falsy exactly when it is empty. *)
Definition not_args (obj : FakeObject.t) : bool :=
  match FakeObject.args obj with [] => true | _ => false end.

(** [FakeObject.pp_format]: the stream afterwards and how the call
    ended. *)
Definition pp_format (printer : Printer) (obj : FakeObject.t) (stream : Stream)
    (indent allowance : Z) (context : Context) (level : Z)
    : Stream * Outcome unit :=
  if not_args obj && is_none (FakeObject.state obj) then
    (stream ++ [FakeObject___repr__ obj], Ok tt)
  else if is_none (FakeObject.state obj) then
    let stream := stream ++ [FakeObject.module obj ++ py "." ++ FakeObject.name obj] in
    _format printer (VTuple (FakeObject.args obj)) stream
      (indent + 1) (allowance + 1) context level
  else if not_args obj then
    let stream :=
      stream ++ [FakeObject.module obj ++ py "." ++ FakeObject.name obj
                 ++ py "()(state=" ++ [10]] in
    let indent := indent + _indent_per_level printer in
    let stream := stream ++ [spaces indent] in
    match _format printer (FakeObject.state obj) stream
            indent (allowance + 1) context (level + 1) with
    | (stream, Ok _) => (stream ++ [py ")"], Ok tt)
    | (stream, bad) => (stream, bad)
    end
  else (stream, Raise (Exception (py "Need to implement"))).
End Rendering.

(** ** DumpUnpickler *)

(** [DumpUnpickler.find_class] *)
Definition find_class (module name : pystr) : FakeClass.t :=
  FakeClass.mk module name.

(** [DumpUnpickler.persistent_load] *)
Definition persistent_load (pid : Value) : FakeObject.t :=
  FakeObject.__init__ (py "pers") (py "obj") [pid].

(** The state of one interpretation.  [stack] keeps the top of the
    Python list first; [heap] holds every [FakeObject] built so far. *)
Record Unpickler := mkUnpickler {
  input : pybytes;
  stack : list Value;
  metastack : list (list Value);
  memo : gmap Z Value;
  heap : list FakeObject.t;
  catch_invalid_utf8 : bool;
  proto : Z
}.

Definition set_input (i : pybytes) (u : Unpickler) : Unpickler :=
  mkUnpickler i (stack u) (metastack u) (memo u) (heap u) (catch_invalid_utf8 u) (proto u).
Definition set_stack (s : list Value) (u : Unpickler) : Unpickler :=
  mkUnpickler (input u) s (metastack u) (memo u) (heap u) (catch_invalid_utf8 u) (proto u).
Definition set_metastack (ms : list (list Value)) (u : Unpickler) : Unpickler :=
  mkUnpickler (input u) (stack u) ms (memo u) (heap u) (catch_invalid_utf8 u) (proto u).
Definition set_memo (m : gmap Z Value) (u : Unpickler) : Unpickler :=
  mkUnpickler (input u) (stack u) (metastack u) m (heap u) (catch_invalid_utf8 u) (proto u).
Definition set_heap (h : list FakeObject.t) (u : Unpickler) : Unpickler :=
  mkUnpickler (input u) (stack u) (metastack u) (memo u) h (catch_invalid_utf8 u) (proto u).
Definition set_proto (p : Z) (u : Unpickler) : Unpickler :=
  mkUnpickler (input u) (stack u) (metastack u) (memo u) (heap u) (catch_invalid_utf8 u) p.

(** [DumpUnpickler(file, catch_invalid_utf8=flag)] about to [load()]. *)
Definition DumpUnpickler (file : pybytes) (flag : bool) : Unpickler :=
  mkUnpickler file [] [] ∅ [] flag 0.

(** [self.read(n)] on an unframed file: up to [n] octets, fewer at the
    end of the file. *)
Definition read (n : Z) (u : Unpickler) : pybytes * Unpickler :=
  (take n (input u), set_input (drop_z n (input u)) u).

(** [self.read(1)[0]] *)
Definition read_octet (u : Unpickler) : Outcome (Z * Unpickler) :=
  match input u with
  | [] => Raise IndexError
  | b :: rest => Ok (bv b, set_input rest u)
  end.

(** The line up to and including the first newline, or what is left. *)
Fixpoint split_line (bs : pybytes) : pybytes * pybytes :=
  match bs with
  | [] => ([], [])
  | b :: rest =>
      if bv b =? 10 then ([b], rest)
      else let '(l, r) := split_line rest in (b :: l, r)
  end.

(** [self.readline()[:-1]] *)
Definition readline_chomp (u : Unpickler) : pybytes * Unpickler :=
  let '(l, r) := split_line (input u) in (removelast l, set_input r u).

(** [self.append(v)] *)
Definition append (v : Value) (u : Unpickler) : Unpickler :=
  set_stack (v :: stack u) u.

(** [self.stack.pop()] *)
Definition pop (u : Unpickler) : Outcome (Value * Unpickler) :=
  match stack u with
  | [] => Raise IndexError
  | v :: s => Ok (v, set_stack s u)
  end.

(** A freshly constructed [FakeObject] gets the next heap location. *)
Definition alloc (o : FakeObject.t) (u : Unpickler) : Value * Unpickler :=
  (VObj (length (heap u)), set_heap (heap u ++ [o]) u).

(** The positional arguments that a call with a starred iterable unpacks to. *)
Definition star_args (v : Value) : Outcome (list Value) :=
  match v with
  | VTuple items => Ok items
  | VStr s => Ok (map (fun c => VStr [c]) s)
  | _ => Raise TypeError
  end.

Section Interpreter.
(** [sys.maxsize] of the platform. *)
Variable maxsize : Z.

(** [DumpUnpickler.load_binunicode] *)
Definition load_binunicode (u : Unpickler) : Outcome Unpickler :=
  let '(hdr, u) := read 4 u in
  match unpack_le32 hdr with
  | None => Raise StructError
  | Some strlen =>
      if maxsize <? strlen then Raise (Exception (py "String too long."))
      else
        let '(str_bytes, u) := read strlen u in
        match utf8_decode SurrogatePass str_bytes with
        | Decoded s => Ok (append (VStr s) u)
        | DecodeFailed exn =>
            if negb (catch_invalid_utf8 u) then Raise (UnicodeDecodeErrorExn exn)
            else
              let '(obj, u) :=
                alloc (FakeObject.__init__ (py "builtin") (py "UnicodeDecodeError")
                         [VStr (str_exn exn)]) u in
              Ok (append obj u)
        end
  end.

(** *** Handlers inherited from the host's [pickle._Unpickler] *)

Definition load_proto (u : Unpickler) : Outcome Unpickler :=
  '(p, u) ← read_octet u;
  if (0 <=? p) && (p <=? 5) then Ok (set_proto p u) else Raise ValueError.

Definition load_none (u : Unpickler) : Outcome Unpickler := Ok (append VNone u).
Definition load_true (u : Unpickler) : Outcome Unpickler := Ok (append (VBool true) u).
Definition load_false (u : Unpickler) : Outcome Unpickler := Ok (append (VBool false) u).

Definition load_binint1 (u : Unpickler) : Outcome Unpickler :=
  '(n, u) ← read_octet u; Ok (append (VInt n) u).

Definition load_mark (u : Unpickler) : Outcome Unpickler :=
  Ok (set_stack [] (set_metastack (stack u :: metastack u) u)).

(** [pop_mark], then [tuple(items)]; the items come back in push order. *)
Definition load_tuple (u : Unpickler) : Outcome Unpickler :=
  match metastack u with
  | [] => Raise IndexError
  | s :: ms => Ok (set_stack (VTuple (rev (stack u)) :: s) (set_metastack ms u))
  end.

Definition load_empty_tuple (u : Unpickler) : Outcome Unpickler :=
  Ok (append (VTuple []) u).

Definition load_tuple1 (u : Unpickler) : Outcome Unpickler :=
  match stack u with
  | a :: s => Ok (set_stack (VTuple [a] :: s) u)
  | _ => Raise IndexError
  end.

Definition load_tuple2 (u : Unpickler) : Outcome Unpickler :=
  match stack u with
  | b :: a :: s => Ok (set_stack (VTuple [a; b] :: s) u)
  | _ => Raise IndexError
  end.

Definition load_tuple3 (u : Unpickler) : Outcome Unpickler :=
  match stack u with
  | c :: b :: a :: s => Ok (set_stack (VTuple [a; b; c] :: s) u)
  | _ => Raise IndexError
  end.

Definition load_binput (u : Unpickler) : Outcome Unpickler :=
  '(i, u) ← read_octet u;
  match stack u with
  | [] => Raise IndexError
  | top :: _ => Ok (set_memo (<[i := top]> (memo u)) u)
  end.

Definition load_binget (u : Unpickler) : Outcome Unpickler :=
  '(i, u) ← read_octet u;
  match memo u !! i with
  | Some v => Ok (append v u)
  | None => Raise UnpicklingError
  end.

(** [load_global]: two lines, decoded strictly, then [find_class]. *)
Definition load_global (u : Unpickler) : Outcome Unpickler :=
  let '(mline, u) := readline_chomp u in
  match utf8_decode Strict mline with
  | DecodeFailed e => Raise (UnicodeDecodeErrorExn e)
  | Decoded module =>
      let '(nline, u) := readline_chomp u in
      match utf8_decode Strict nline with
      | DecodeFailed e => Raise (UnicodeDecodeErrorExn e)
      | Decoded name => Ok (append (VClass (find_class module name)) u)
      end
  end.

(** [load_binpersid]: [self.append(self.persistent_load(pid))] *)
Definition load_binpersid (u : Unpickler) : Outcome Unpickler :=
  '(pid, u) ← pop u;
  let '(obj, u) := alloc (persistent_load pid) u in
  Ok (append obj u).

(** [load_reduce]: the callable under the argument tuple is applied to the unpacked tuple and replaced by the result.  Only a [FakeClass] is
    callable among the values built here. *)
Definition load_reduce (u : Unpickler) : Outcome Unpickler :=
  '(args, u) ← pop u;
  match stack u with
  | [] => Raise IndexError
  | func :: s =>
      items ← star_args args;
      match func with
      | VClass c =>
          let '(obj, u) := alloc (FakeClass___call__ c items) u in
          Ok (set_stack (obj :: s) u)
      | _ => Raise TypeError
      end
  end.

(** [load_newobj]: [obj = cls.__new__(cls, *args)] *)
Definition load_newobj (u : Unpickler) : Outcome Unpickler :=
  '(args, u) ← pop u;
  '(cls, u) ← pop u;
  items ← star_args args;
  match cls with
  | VClass c =>
      let '(obj, u) := alloc (FakeClass___new__ c items) u in
      Ok (append obj u)
  | _ => Raise TypeError
  end.

(** [load_build]: [inst.__setstate__(state)] when [inst] has the
    method, which among the values built here only a [FakeObject] does.
    The call mutates the object in place. *)
Definition load_build (u : Unpickler) : Outcome Unpickler :=
  '(state, u) ← pop u;
  match stack u with
  | [] => Raise IndexError
  | VObj l :: _ =>
      match heap u !! l with
      | Some inst => Ok (set_heap (<[l := FakeObject.__setstate__ inst state]> (heap u)) u)
      | None => Beyond BuildWithoutSetstate
      end
  | _ => Beyond BuildWithoutSetstate
  end.

(** [load_stop] raises [_Stop(value)], which ends [load]. *)
Inductive Step :=
| Next (u : Unpickler)
| Stopped (value : Value) (u : Unpickler).

Definition load_stop (u : Unpickler) : Outcome Step :=
  '(value, u) ← pop u; Ok (Stopped value u).

Definition continue (r : Outcome Unpickler) : Outcome Step :=
  u ← r; Ok (Next u).

(** [dispatch[key[0]](self)], with [BINUNICODE] replaced as in the
    class body. *)
Definition dispatch (key : byte) (u : Unpickler) : Outcome Step :=
  match key with
  | "("%byte => continue (load_mark u)
  | "."%byte => load_stop u
  | "N"%byte => continue (load_none u)
  | "K"%byte => continue (load_binint1 u)
  | "X"%byte => continue (load_binunicode u)
  | "c"%byte => continue (load_global u)
  | "R"%byte => continue (load_reduce u)
  | "b"%byte => continue (load_build u)
  | ")"%byte => continue (load_empty_tuple u)
  | "t"%byte => continue (load_tuple u)
  | "Q"%byte => continue (load_binpersid u)
  | "q"%byte => continue (load_binput u)
  | "h"%byte => continue (load_binget u)
  | x80 => continue (load_proto u)
  | x81 => continue (load_newobj u)
  | x85 => continue (load_tuple1 u)
  | x86 => continue (load_tuple2 u)
  | x87 => continue (load_tuple3 u)
  | x88 => continue (load_true u)
  | x89 => continue (load_false u)
  | other => Beyond (OtherOpcode other)
  end.

(** One turn of the loop in [load]: read a key, dispatch. *)
Definition step (u : Unpickler) : Outcome Step :=
  match input u with
  | [] => Raise EOFError
  | key :: rest => dispatch key (set_input rest u)
  end.

Fixpoint load_loop (fuel : nat) (u : Unpickler) : Outcome (Value * Unpickler) :=
  match fuel with
  | O => Beyond FuelExhausted
  | S k =>
      r ← step u;
      match r with
      | Stopped value u => Ok (value, u)
      | Next u => load_loop k u
      end
  end.

(** [load()]: every turn consumes its opcode, so the length of the
    input bounds the number of turns. *)
Definition load (u : Unpickler) : Outcome (Value * Unpickler) :=
  load_loop (S (length (input u))) u.
End Interpreter.

(** ** Files, archives and the streams of the process *)

(** A member of a zip archive as [zipfile] presents it. *)
Record ZipInfo := mkZipInfo {
  filename : pystr;
  member_bytes : pybytes
}.

(** A file: the octets [open(path, "rb")] reads and, when the file is a
    zip archive, its members in stored order ([ZipFile.infolist()]). *)
Record FileNode := mkFileNode {
  raw : pybytes;
  archive : option (list ZipInfo)
}.

(** The observable effects of a run, in order.  A sink is the caller's
    [output_stream]; [None] stands for [sys.stdout]. *)
Inductive Event :=
| OpenFile (path : pystr)
| OpenArchive (path : pystr)
| OpenMember (index : nat) (name : pystr)
| Write (sink : option nat) (text : pystr)
| StderrWrite (text : pystr).

(** [ZipFile.getinfo(name)]: the directory maps a name to the last
    member stored under it. *)
Fixpoint getinfo_from (i : nat) (name : pystr) (infos : list ZipInfo)
    : option (nat * ZipInfo) :=
  match infos with
  | [] => None
  | info :: rest =>
      match getinfo_from (S i) name rest with
      | Some hit => Some hit
      | None => if decide (filename info = name) then Some (i, info) else None
      end
  end.

Definition getinfo (name : pystr) (infos : list ZipInfo) : option (nat * ZipInfo) :=
  getinfo_from 0 name infos.

Definition usage : list pystr :=
  [ py "usage: show_pickle PICKLE_FILE" ++ [10];
    py "  PICKLE_FILE can be any of:" ++ [10];
    py "    path to a pickle file" ++ [10];
    py "    file.zip@member.pkl" ++ [10];
    py "    file.zip@*/pattern.*" ++ [10];
    py "      (shell glob pattern for members)" ++ [10];
    py "      (only first match will be shown)" ++ [10] ].

Section Main.
Variable maxsize : Z.

(** [fnmatch.fnmatch(name, pattern)] of the host. *)
Variable fnmatch : pystr -> pystr -> bool.

(** [pprint.pprint(value, stream=...)] of the host: the texts it
    writes and how it ends. *)
Variable pprint : list FakeObject.t -> Value -> list pystr * Outcome unit.

Variable files : gmap (list Z) FileNode.

(** [DumpUnpickler.dump]: [cls(in_stream)] leaves
    [catch_invalid_utf8] at its default. *)
Definition dump (in_stream : pybytes) (out_stream : option nat)
    : list Event * Outcome Value :=
  match load maxsize (DumpUnpickler in_stream false) with
  | Ok (value, u) =>
      let '(texts, r) := pprint (heap u) value in
      (map (Write out_stream) texts, _ ← r; Ok value)
  | Raise e => ([], Raise e)
  | Beyond w => ([], Beyond w)
  end.

(** The [for info in zf.infolist()] loop: whether a member was found. *)
Fixpoint scan_members (mname : pystr) (i : nat) (infos : list ZipInfo)
    (output_stream : option nat) : list Event * Outcome bool :=
  match infos with
  | [] => ([], Ok false)
  | info :: rest =>
      if fnmatch (filename info) mname then
        let '(evs, r) := dump (member_bytes info) output_stream in
        (OpenMember i (filename info) :: evs, _ ← r; Ok true)
      else scan_members mname (S i) rest output_stream
  end.

(** The body of [with zipfile.ZipFile(zfname) as zf:] in [main]. *)
Definition main_zip (zfname mname : pystr) (output_stream : option nat)
    : list Event * Outcome Z :=
  match files !! zfname with
  | None => ([], Raise (FileNotFoundError zfname))
  | Some node =>
      match archive node with
      | None => ([], Raise BadZipFile)
      | Some infos =>
          if negb (contains 42 mname) then
            match getinfo mname infos with
            | None => ([OpenArchive zfname], Raise (KeyError mname))
            | Some (i, info) =>
                let '(evs, r) := dump (member_bytes info) output_stream in
                (OpenArchive zfname :: OpenMember i (filename info) :: evs,
                 _ ← r; Ok 0)
            end
          else
            let '(evs, r) := scan_members mname 0 infos output_stream in
            (OpenArchive zfname :: evs,
             found ← r;
             if negb found then
               Raise (Exception (py "Could not find member matching " ++ mname
                                 ++ py " in " ++ zfname))
             else Ok 0)
      end
  end.

(** [main(argv, output_stream)] *)
Definition main (argv : list pystr) (output_stream : option nat)
    : list Event * Outcome Z :=
  if negb (len argv =? 2) then
    match output_stream with
    | Some _ => ([], Raise (Exception (py "Pass argv of length 2.")))
    | None => (map StderrWrite usage, Ok 2)
    end
  else
    let fname := nth 1 argv [] in
    if negb (contains 64 fname) then
      match files !! fname with
      | None => ([], Raise (FileNotFoundError fname))
      | Some node =>
          let '(evs, r) := dump (raw node) output_stream in
          (OpenFile fname :: evs, _ ← r; Ok 0)
      end
    else
      match split_once 64 fname with
      | None => ([], Raise ValueError)
      | Some (zfname, mname) => main_zip zfname mname output_stream
      end.
End Main.

(** ** Host functions used to run the program on concrete inputs *)

(** [fnmatch.fnmatch] on a POSIX host (no case folding): [*] matches any
    text, [?] any one character, [[seq]] and [[!seq]] one character in
    or not in the set, where [a-b] inside a set is a range. *)
Inductive GlobToken :=
| GStar
| GAny
| GLit (c : Z)
| GSet (negate : bool) (ranges : list (Z * Z)).

Fixpoint set_items (prev : Z) (body : pystr) : list (Z * Z) :=
  match body with
  | [] => [(prev, prev)]
  | c :: rest =>
      if c =? 45 then
        match rest with
        | [] => [(prev, prev); (45, 45)]
        | hi :: rest' =>
            (prev, hi) :: match rest' with
                          | [] => []
                          | n :: rest'' => set_items n rest''
                          end
        end
      else (prev, prev) :: set_items c rest
  end.

(** After an opening bracket: whether the set is negated, its body, and
    how many characters it spans up to and including the closing
    bracket.  A closing bracket right at the start belongs to the set. *)
Definition bracket (rest : pystr) : option (bool * pystr * nat) :=
  let '(neg, r1) := match rest with 33 :: r => (true, r) | _ => (false, rest) end in
  let '(lead, r2) := match r1 with 93 :: r => ([93], r) | _ => ([], r1) end in
  match split_once 93 r2 with
  | None => None
  | Some (body, _) =>
      Some (neg, lead ++ body,
            ((if neg then 1 else 0) + length (lead ++ body) + 1)%nat)
  end.

Fixpoint glob_tokens (skip : nat) (pat : pystr) : list GlobToken :=
  match pat with
  | [] => []
  | c :: rest =>
      match skip with
      | S k => glob_tokens k rest
      | O =>
          if c =? 42 then GStar :: glob_tokens 0 rest
          else if c =? 63 then GAny :: glob_tokens 0 rest
          else if c =? 91 then
            match bracket rest with
            | Some (neg, b :: body, n) =>
                GSet neg (set_items b body) :: glob_tokens n rest
            | _ => GLit 91 :: glob_tokens 0 rest
            end
          else GLit c :: glob_tokens 0 rest
      end
  end.

Definition token_accepts (t : GlobToken) (c : Z) : bool :=
  match t with
  | GStar | GAny => true
  | GLit d => c =? d
  | GSet neg ranges =>
      xorb neg (existsb (fun '(lo, hi) => (lo <=? c) && (c <=? hi)) ranges)
  end.

Fixpoint glob_match (ts : list GlobToken) (s : pystr) : bool :=
  match ts with
  | [] => match s with [] => true | _ => false end
  | GStar :: ts' =>
      (fix star (s : pystr) : bool :=
         glob_match ts' s || match s with [] => false | _ :: r => star r end) s
  | t :: ts' =>
      match s with
      | [] => false
      | c :: r => token_accepts t c && glob_match ts' r
      end
  end.

Definition fnmatch_posix (name pat : pystr) : bool :=
  glob_match (glob_tokens 0 pat) name.

(** [FakeClass.__repr__] *)
Definition FakeClass___repr__ (self : FakeClass.t) : pystr :=
  FakeClass.module self ++ py "." ++ FakeClass.name self.

Fixpoint join (sep : pystr) (parts : list pystr) : pystr :=
  match parts with
  | [] => []
  | [p] => p
  | p :: rest => p ++ sep ++ join sep rest
  end.

(** [repr] on the value universe, for text that needs no escaping.
    [depth] bounds the nesting that is followed. *)
Fixpoint repr_value (depth : nat) (h : list FakeObject.t) (v : Value) : pystr :=
  match depth with
  | O => py "..."
  | S k =>
      match v with
      | VNone => py "None"
      | VBool true => py "True"
      | VBool false => py "False"
      | VInt n => if n <? 0 then py "-" ++ decimal (- n) else decimal n
      | VStr s => [39] ++ s ++ [39]
      | VTuple [x] => py "(" ++ repr_value k h x ++ py ",)"
      | VTuple xs => py "(" ++ join (py ", ") (map (repr_value k h) xs) ++ py ")"
      | VClass c => FakeClass___repr__ c
      | VObj l =>
          match h !! l with
          | Some o => FakeObject___repr__ (repr_value k h) o
          | None => py "?"
          end
      end
  end.

(** [pprint.pprint] on a value whose [repr] fits the line: the [repr],
    then a newline.  No per-type hook is consulted in that case. *)
Definition pprint_fits (h : list FakeObject.t) (v : Value) : list pystr * Outcome unit :=
  ([repr_value 64 h v; [10]], Ok tt).

(** [sys.maxsize] on a 64-bit and on a 32-bit host. *)
Definition maxsize64 : Z := 2 ^ 63 - 1.
Definition maxsize32 : Z := 2 ^ 31 - 1.

(** Text of a Python [str] of ASCII characters, for reading results. *)
Definition text (s : pystr) : string :=
  String.string_of_list_ascii (map (fun c => ascii_of_N (Z.to_N c)) s).

(** *** Sample streams and a sample file system *)


(** GLOBAL m C, EMPTY_TUPLE, REDUCE, STOP *)
Definition stream_m_C : pybytes :=
  pyb "cm" ++ [x0a] ++ pyb "C" ++ [x0a] ++ pyb ")R.".

(** BININT1 7, STOP *)
Definition stream_seven : pybytes := pyb "K" ++ [x07] ++ pyb ".".

Definition sample_files : gmap (list Z) FileNode :=
  {[ py "a.zip" :=
       mkFileNode (pyb "PK")
         (Some [ mkZipInfo (py "readme.txt") (pyb "hello");
                 mkZipInfo (py "a.pkl") stream_m_C;
                 mkZipInfo (py "b.pkl") stream_seven ]) ;
     py "plain.pkl" := mkFileNode stream_seven None ]}.

(** *** Runs of the interpreter *)

(** [reaches maxsize u u']: the loop of [load] gets from [u] to [u']
    in some number of turns. *)
Inductive reaches (maxsize : Z) : Unpickler -> Unpickler -> Prop :=
| reaches_here (u : Unpickler) : reaches maxsize u u
| reaches_step (u u' u'' : Unpickler) :
    step maxsize u = Ok (Next u') -> reaches maxsize u' u'' -> reaches maxsize u u''.

(** The state after [n] turns, when none of them stops or fails. *)
Fixpoint run (maxsize : Z) (n : nat) (u : Unpickler) : option Unpickler :=
  match n with
  | O => Some u
  | S k =>
      match step maxsize u with
      | Ok (Next u') => run maxsize k u'
      | _ => None
      end
  end.


(** A printer for exercising [pp_format]. *)
Definition printer_echo : Printer unit :=
  mkPrinter unit (fun v stream _ _ _ _ => (stream ++ [repr_value 8 [] v], Ok tt)) 1.

(** The [BINUNICODE] opcode with its length prefix and payload. *)
Definition binunicode (payload : pybytes) : pybytes :=
  "X"%byte :: pack_le32 (len payload) ++ payload.

(** The sentinel that stands for a string that would not decode. *)
Definition invalid_utf8_sentinel (exn : UnicodeDecodeError) : FakeObject.t :=
  FakeObject.mk (py "builtin") (py "UnicodeDecodeError") [VStr (str_exn exn)] VNone.

(** *** Auxiliary definitions for the proofs *)

(** The interpreter state a turn ends in. *)
Definition step_state (s : Step) : Unpickler :=
  match s with Next u => u | Stopped _ u => u end.

(** A bounded universal check: [P] holds on [lo, lo + n). *)
Fixpoint all_from (n : nat) (lo : Z) (P : Z -> bool) : bool :=
  match n with
  | O => true
  | S k => P lo && all_from k (lo + 1) P
  end.

(** The three-byte form of a surrogate: its shape, that surrogate-pass
    decodes it to the code point, and that strict decoding rejects it. *)
Definition surrogate_round_trip (cp : Z) : bool :=
  match utf8_encode_char cp with
  | [b0; b1; b2] =>
      (bv b0 =? 237) && (160 <=? bv b1) && (bv b1 <=? 191)
      && (128 <=? bv b2) && (bv b2 <=? 191)
      && match utf8_decode SurrogatePass [b0; b1; b2] with
         | Decoded [c] => c =? cp
         | _ => false
         end
      && match utf8_decode Strict [b0; b1; b2] with
         | DecodeFailed _ => true
         | Decoded _ => false
         end
  | _ => false
  end.

(** *** Observations on runs of [main] *)

(** An event that opens a stream to unpickle. *)
Definition is_open (e : Event) : bool :=
  match e with
  | OpenFile _ | OpenMember _ _ => true
  | _ => false
  end.

(** Two instances that differ at most in their state. *)
Definition same_identity (o o' : FakeObject.t) : Prop :=
  FakeObject.module o' = FakeObject.module o
  /\ FakeObject.name o' = FakeObject.name o
  /\ FakeObject.args o' = FakeObject.args o.

(** A file that holds a string opcode with an undecodable payload, next
    to the sample archive. *)
Definition sample_files_bad : gmap (list Z) FileNode :=
  <[ py "bad.pkl" := mkFileNode (binunicode [xff] ++ pyb ".") None ]> sample_files.

(** An archive that stores two members under one name. *)
Definition sample_files_dup : gmap (list Z) FileNode :=
  {[ py "d.zip" :=
       mkFileNode (pyb "PK")
         (Some [ mkZipInfo (py "x.pkl") stream_seven;
                 mkZipInfo (py "y.pkl") stream_seven;
                 mkZipInfo (py "x.pkl") stream_m_C ]) ]}.

(** The shapes a run of [main] on a program name and one locator can
    take: a failure before anything is opened, a failure after opening
    the archive, or the dump of one file or of one member. *)
Inductive main_shape (maxsize : Z)
    (pprint : list FakeObject.t -> Value -> list (list Z) * Outcome unit)
    (out : option nat) : list Event * Outcome Z -> Prop :=
| shape_failed_early (e : PyExn) : main_shape maxsize pprint out ([], Raise e)
| shape_archive_only (z : list Z) (e : PyExn) :
    main_shape maxsize pprint out ([OpenArchive z], Raise e)
| shape_file (f : list Z) (bs : list byte) :
    main_shape maxsize pprint out
      (OpenFile f :: (dump maxsize pprint bs out).1,
       _ ← (dump maxsize pprint bs out).2; Ok 0)
| shape_member (z : list Z) (i : nat) (n : list Z) (bs : list byte) :
    main_shape maxsize pprint out
      (OpenArchive z :: OpenMember i n :: (dump maxsize pprint bs out).1,
       _ ← (dump maxsize pprint bs out).2; Ok 0).

(** ** tools/pre_build_flash_attention.py *)

(** [needle in s] on strings. *)
Fixpoint starts_with (needle s : list Z) : bool :=
  match needle, s with
  | [], _ => true
  | _ :: _, [] => false
  | a :: needle', b :: s' => (a =? b) && starts_with needle' s'
  end.

Fixpoint is_infix (needle s : list Z) : bool :=
  starts_with needle s
  || match s with
     | [] => false
     | _ :: s' => is_infix needle s'
     end.

(** What the build driver does to its surroundings, in order. *)
Inductive BuildEvent :=
| Print (text : list Z)               (* one [print] call *)
| Makedirs (path : list Z)            (* [os.makedirs(path, exist_ok=True)] *)
| Run (argv : list (list Z)).         (* [subprocess.run(argv)] *)


Section PreBuild.
(** The state of the machine the driver runs on, and the host functions
    it calls. *)
Variable World : Type.
Variable dirname : list Z -> list Z.                        (* os.path.dirname *)
Variable split : list Z -> list (list Z).                   (* str.split() *)
Variable makedirs : list Z -> World -> World * Outcome unit.
Variable subprocess_run : list (list Z) -> World -> World * Outcome Z.

(** The loop of [main] over the entries of the compile-command
    database, each a JSON object with string values. *)
Fixpoint compile_all (compile_commands : list (gmap (list Z) (list Z))) (w : World)
    : list BuildEvent * World * Outcome unit :=
  match compile_commands with
  | [] => ([], w, Ok tt)
  | command :: rest =>
      match command !! py "output" with
      | None => ([], w, Raise (KeyError (py "output")))
      | Some output =>
          if is_infix (py "flash-attention") output then
            match command !! py "command" with
            | None => ([], w, Raise (KeyError (py "command")))
            | Some cmd =>
                let compiling :=
                  Print (py "Compiling " ++ output ++ py " with command: " ++ cmd) in
                let dir := dirname output in
                match makedirs dir w with
                | (w, Ok _) =>
                    match subprocess_run (split cmd) w with
                    | (w, Ok returncode) =>
                        let failed :=
                          if negb (returncode =? 0) then
                            [Print (py "Failed to compile " ++ output
                                    ++ py ", command: " ++ cmd)]
                          else [] in
                        let '(evs, w, r) := compile_all rest w in
                        (compiling :: Makedirs dir :: Run (split cmd) :: failed ++ evs,
                         w, r)
                    | (w, Raise e) =>
                        ([compiling; Makedirs dir; Run (split cmd)], w, Raise e)
                    | (w, Beyond b) =>
                        ([compiling; Makedirs dir; Run (split cmd)], w, Beyond b)
                    end
                | (w, Raise e) => ([compiling; Makedirs dir], w, Raise e)
                | (w, Beyond b) => ([compiling; Makedirs dir], w, Beyond b)
                end
            end
          else compile_all rest w
      end
  end.

(** [main()], given what [get_compile_commands()] returns or raises. *)
Definition pre_build_main (get_compile_commands : Outcome (list (gmap (list Z) (list Z))))
    (w : World) : list BuildEvent * World * Outcome unit :=
  match get_compile_commands with
  | Ok compile_commands => compile_all compile_commands w
  | Raise e => ([], w, Raise e)
  | Beyond b => ([], w, Beyond b)
  end.

End PreBuild.

(** Host functions for running the driver on samples: words separated
    by spaces, and the directory part of a relative path with a slash. *)
Fixpoint words (cur : list Z) (s : list Z) : list (list Z) :=
  match s with
  | [] => match cur with [] => [] | _ => [rev cur] end
  | c :: rest =>
      if c =? 32 then
        match cur with [] => words [] rest | _ => rev cur :: words [] rest end
      else words (c :: cur) rest
  end.

Definition split_spaces (s : list Z) : list (list Z) := words [] s.

Fixpoint dir_part (s : list Z) : option (list Z) :=
  match s with
  | [] => None
  | c :: rest =>
      match dir_part rest with
      | Some d => Some (c :: d)
      | None => if c =? 47 then Some [] else None
      end
  end.

Definition dirname_relative (s : list Z) : list Z :=
  match dir_part s with Some d => d | None => [] end.

(** A machine on which every directory can be made and every compiler
    call returns 1 for an argument vector that names [bad.cu] and 0
    otherwise; its state counts the compiler calls. *)
Definition sample_makedirs (path : list Z) (w : nat) : nat * Outcome unit := (w, Ok tt).

Definition sample_run (argv : list (list Z)) (w : nat) : nat * Outcome Z :=
  (S w, Ok (if existsb (fun a => bool_decide (a = py "bad.cu")) argv then 1 else 0)).

Definition sample_database : list (gmap (list Z) (list Z)) :=
  [ {[ py "output" := py "build/flash-attention/bad.o";
       py "command" := py "nvcc -c bad.cu" ]};
    {[ py "output" := py "build/other/x.o" ]};
    {[ py "output" := py "build/flash-attention/ok.o";
       py "command" := py "nvcc  -c ok.cu" ]} ].


(** A machine as [sample_makedirs] and [sample_run] describe it, except
    that making the directory with the empty name and running the empty
    argument vector raise, as they do on a real host. *)
Definition strict_makedirs (path : list Z) (w : nat) : nat * Outcome unit :=
  match path with
  | [] => (w, Raise (FileNotFoundError []))
  | _ => (w, Ok tt)
  end.

Definition strict_run (argv : list (list Z)) (w : nat) : nat * Outcome Z :=
  match argv with
  | [] => (w, Raise IndexError)
  | _ => sample_run argv w
  end.

(** * Properties *)

(** ** Octets, slices and the length prefix *)

Lemma bv_range (b : byte) : 0 <= bv b < 256.
Proof.
  unfold bv. pose proof (Byte.to_N_bounded b) as H. lia.
Qed.

Lemma length_take {A} (l : list A) (n : Z) : (length (take n l) <= length l)%nat.
Proof.
  revert n. induction l as [|x l IH]; intros n; simpl; [lia|].
  destruct (n <=? 0); simpl; [lia|]. specialize (IH (n - 1)). lia.
Qed.

Lemma length_drop_z {A} (l : list A) (n : Z) : (length (drop_z n l) <= length l)%nat.
Proof.
  revert n. induction l as [|x l IH]; intros n; simpl; [lia|].
  destruct (n <=? 0); simpl; [lia|]. specialize (IH (n - 1)). lia.
Qed.

Lemma take_drop_z {A} (l : list A) (n : Z) : take n l ++ drop_z n l = l.
Proof.
  revert n. induction l as [|x l IH]; intros n; simpl; [done|].
  destruct (n <=? 0); simpl; [done|]. by rewrite IH.
Qed.

Lemma take_app_exact {A} (l r : list A) : take (len l) (l ++ r) = l.
Proof.
  unfold len. induction l as [|x l IH].
  - destruct r; reflexivity.
  - cbn [app length take]. rewrite Nat2Z.inj_succ.
    destruct (Z.leb_spec (Z.succ (Z.of_nat (length l))) 0) as [H|H]; [lia|].
    f_equal. replace (Z.succ (Z.of_nat (length l)) - 1) with (Z.of_nat (length l)) by lia.
    exact IH.
Qed.

Lemma drop_z_app_exact {A} (l r : list A) : drop_z (len l) (l ++ r) = r.
Proof.
  unfold len. induction l as [|x l IH].
  - destruct r; reflexivity.
  - cbn [app length drop_z]. rewrite Nat2Z.inj_succ.
    destruct (Z.leb_spec (Z.succ (Z.of_nat (length l))) 0) as [H|H]; [lia|].
    replace (Z.succ (Z.of_nat (length l)) - 1) with (Z.of_nat (length l)) by lia.
    exact IH.
Qed.

Lemma unpack_le32_length (bs : pybytes) (n : Z) :
  unpack_le32 bs = Some n -> length bs = 4%nat.
Proof.
  destruct bs as [|b0 [|b1 [|b2 [|b3 [|b4 bs]]]]]; simpl; intros H; by inversion H.
Qed.

Lemma unpack_le32_range (bs : pybytes) (n : Z) :
  unpack_le32 bs = Some n -> 0 <= n <= 2 ^ 32 - 1.
Proof.
  destruct bs as [|b0 [|b1 [|b2 [|b3 [|b4 bs]]]]]; simpl; intros H; inversion H.
  pose proof (bv_range b0). pose proof (bv_range b1).
  pose proof (bv_range b2). pose proof (bv_range b3).
  rewrite !Z.shiftl_mul_pow2 by lia. lia.
Qed.

(** ** The placeholder value model *)

(** [find_class] records the pair it is given. *)
Lemma find_class_fields (module name : pystr) :
  FakeClass.module (find_class module name) = module
  /\ FakeClass.name (find_class module name) = name.
Proof. split; reflexivity. Qed.

(** C4. For every placeholder class and every argument sequence, the
    fast-construction application [fake_new] builds an instance whose
    constructor arguments are the given ones without their first
    element, while the ordinary application [__call__] stores them
    verbatim; both carry the module and name of the class and no state.
    Through the [__new__] attribute, where the class token is passed
    first, the arguments that remain are exactly those of the opcode. *)
Theorem fake_new_drops_first (cls : FakeClass.t) (args : list Value) :
  fake_new cls args
    = FakeObject.mk (FakeClass.module cls) (FakeClass.name cls) (drop 1 args) VNone
  /\ FakeClass___call__ cls args
    = FakeObject.mk (FakeClass.module cls) (FakeClass.name cls) args VNone
  /\ FakeObject.args (FakeClass___new__ cls args) = args.
Proof.
  unfold fake_new, FakeClass___call__, FakeClass___new__, FakeObject.__init__.
  split; [by destruct args | split; reflexivity].
Qed.

(** ** Rendering *)

(** C5. For every placeholder instance with a non-empty argument tuple
    and a state that is not [None], [pp_format] raises the exception
    "Need to implement" and has written nothing to the stream, whatever
    the printer, the stream and the layout parameters are. *)
Theorem pp_format_args_and_state_raises
    (repr : Value -> pystr) (Context : Type) (printer : Printer Context)
    (obj : FakeObject.t) (stream : list (list Z))
    (indent allowance : Z) (context : Context) (level : Z) :
  FakeObject.args obj <> [] ->
  FakeObject.state obj <> VNone ->
  pp_format repr Context printer obj stream indent allowance context level
    = (stream, Raise (Exception (py "Need to implement"))).
Proof.
  intros Hargs Hstate. unfold pp_format, not_args.
  destruct (FakeObject.args obj) as [|a rest] eqn:Ea; [done|].
  destruct (FakeObject.state obj) eqn:Es; try done.
Qed.

Lemma pp_format_args_and_state_raises_witness :
  pp_format (repr_value 8 []) unit printer_echo
    (FakeObject.mk (py "m") (py "C") [VInt 1] (VInt 2)) [] 0 0 tt 0
  = ([], Raise (Exception (py "Need to implement"))).
Proof.
  apply pp_format_args_and_state_raises; simpl; discriminate.
Defined.

(** ** The length prefix of a string opcode *)

(** C9. The length of a string opcode is decoded from exactly four
    octets as an unsigned little-endian integer, hence is at most
    [2^32 - 1]; so whenever [sys.maxsize] is at least [2^32 - 1] the
    handler never raises "String too long.". *)
Theorem string_too_long_unreachable (maxsize : Z) (u : Unpickler) :
  2 ^ 32 - 1 <= maxsize ->
  (forall bs n, unpack_le32 bs = Some n -> length bs = 4%nat /\ 0 <= n <= 2 ^ 32 - 1)
  /\ load_binunicode maxsize u <> Raise (Exception (py "String too long.")).
Proof.
  intros Hmax. split.
  - intros bs n H. split; [by eapply unpack_le32_length | by eapply unpack_le32_range].
  - unfold load_binunicode. destruct (read 4 u) as [hdr u1].
    destruct (unpack_le32 hdr) as [strlen|] eqn:Eh; [|discriminate].
    apply unpack_le32_range in Eh.
    destruct (Z.ltb_spec maxsize strlen) as [Hlt|Hge]; [lia|].
    destruct (read strlen u1) as [str_bytes u2].
    destruct (utf8_decode SurrogatePass str_bytes); [discriminate|].
    destruct (negb (catch_invalid_utf8 u2)); [discriminate|].
    destruct (alloc _ u2). discriminate.
Qed.

Lemma string_too_long_unreachable_witness :
  (forall bs n, unpack_le32 bs = Some n -> length bs = 4%nat /\ 0 <= n <= 2 ^ 32 - 1)
  /\ load_binunicode maxsize64
       (DumpUnpickler [xff; xff; xff; xff; x41] false)
     <> Raise (Exception (py "String too long.")).
Proof.
  apply (string_too_long_unreachable maxsize64). unfold maxsize64. lia.
Defined.

(** On a 32-bit host the branch is live: a length prefix above
    [2^31 - 1] reaches it. *)
Example string_too_long_on_32_bit :
  load_binunicode maxsize32 (DumpUnpickler [xff; xff; xff; xff; x41] false)
  = Raise (Exception (py "String too long.")).
Proof. reflexivity. Qed.

(** ** The interpreter loop *)

Lemma length_split_line (bs : pybytes) :
  (length (split_line bs).2 <= length bs)%nat.
Proof.
  induction bs as [|b bs IH]; simpl; [lia|].
  destruct (bv b =? 10); simpl; [lia|].
  destruct (split_line bs) as [l r]. simpl in *. lia.
Qed.

Lemma readline_chomp_input (u : Unpickler) :
  (length (input (readline_chomp u).2) <= length (input u))%nat.
Proof.
  unfold readline_chomp. pose proof (length_split_line (input u)) as H.
  destruct (split_line (input u)) as [l r]. simpl in *. exact H.
Qed.

Lemma read_input (n : Z) (u : Unpickler) :
  (length (input (read n u).2) <= length (input u))%nat.
Proof. unfold read. simpl. apply length_drop_z. Qed.

Lemma read_octet_input (u u' : Unpickler) (n : Z) :
  read_octet u = Ok (n, u') -> (length (input u') < length (input u))%nat.
Proof.
  unfold read_octet. destruct (input u) eqn:E; intros H; inversion H; subst.
  simpl. lia.
Qed.

Lemma pop_input (u u' : Unpickler) (v : Value) :
  pop u = Ok (v, u') -> input u' = input u.
Proof.
  unfold pop. destruct (stack u); intros H; inversion H; subst. reflexivity.
Qed.

(** Unfolds one monadic handler and splits on everything it inspects. *)
Ltac handler_cases :=
  unfold continue, mbind, Outcome_bind in *;
  repeat match goal with
    | H : Ok _ = Ok _ |- _ => inversion H; subst; clear H
    | H : Raise _ = Ok _ |- _ => discriminate H
    | H : Beyond _ = Ok _ |- _ => discriminate H
    | H : context [match ?x with _ => _ end] |- _ =>
        let E := fresh "E" in destruct x eqn:E
    | H : context [if ?x then _ else _] |- _ =>
        let E := fresh "E" in destruct x eqn:E
    end.

Section LoopFacts.
Variable maxsize : Z.

Lemma load_binunicode_input (u u' : Unpickler) :
  load_binunicode maxsize u = Ok u' -> (length (input u') <= length (input u))%nat.
Proof.
  unfold load_binunicode. intros H.
  pose proof (read_input 4 u) as H4.
  destruct (read 4 u) as [hdr u1]. simpl in H4.
  destruct (unpack_le32 hdr) as [strlen|]; [|discriminate].
  destruct (maxsize <? strlen); [discriminate|].
  pose proof (read_input strlen u1) as Hn.
  destruct (read strlen u1) as [str_bytes u2]. simpl in Hn.
  destruct (utf8_decode SurrogatePass str_bytes).
  - inversion H; subst. simpl. lia.
  - destruct (negb (catch_invalid_utf8 u2)); [discriminate|].
    inversion H; subst. simpl. lia.
Qed.

Lemma load_global_input (u u' : Unpickler) :
  load_global u = Ok u' -> (length (input u') <= length (input u))%nat.
Proof.
  unfold load_global. intros H.
  pose proof (readline_chomp_input u) as H1.
  destruct (readline_chomp u) as [mline u1]. simpl in H1.
  destruct (utf8_decode Strict mline); [|discriminate].
  pose proof (readline_chomp_input u1) as H2.
  destruct (readline_chomp u1) as [nline u2]. simpl in H2.
  destruct (utf8_decode Strict nline); [|discriminate].
  inversion H; subst. simpl. lia.
Qed.

Lemma dispatch_input (key : byte) (u : Unpickler) (s : Step) :
  dispatch maxsize key u = Ok s ->
  (length (input (step_state s)) <= length (input u))%nat.
Proof.
  intros H.
  destruct key; simpl in H; try discriminate H;
    unfold load_mark, load_stop, load_none, load_binint1, load_reduce, load_build,
      load_empty_tuple, load_tuple, load_binpersid, load_binput, load_binget,
      load_proto, load_newobj, load_tuple1, load_tuple2, load_tuple3,
      load_true, load_false, star_args, alloc, append in H;
    try (unfold continue, mbind, Outcome_bind in H;
         destruct (load_binunicode maxsize u) eqn:E; [|discriminate..];
         apply load_binunicode_input in E; inversion H; subst; simpl; lia);
    try (unfold continue, mbind, Outcome_bind in H;
         destruct (load_global u) eqn:E; [|discriminate..];
         apply load_global_input in E; inversion H; subst; simpl; lia);
    handler_cases; simpl;
    repeat match goal with
      | E : read_octet _ = Ok _ |- _ => apply read_octet_input in E
      | E : pop _ = Ok _ |- _ => apply pop_input in E
      end;
    simpl in *;
    repeat match goal with
      | E : input _ = input _ |- _ => rewrite E in *; clear E
      end;
    lia.
Qed.
End LoopFacts.

Section LoadFacts.
Variable maxsize : Z.

Lemma step_input (u : Unpickler) (s : Step) :
  step maxsize u = Ok s ->
  (length (input (step_state s)) < length (input u))%nat.
Proof.
  unfold step. destruct (input u) as [|key rest] eqn:E; [discriminate|].
  intros H. apply dispatch_input in H. simpl in *. lia.
Qed.

(** Any fuel above the length of the input gives the same result. *)
Lemma load_loop_fuel (f1 f2 : nat) (u : Unpickler) :
  (length (input u) < f1)%nat -> (length (input u) < f2)%nat ->
  load_loop maxsize f1 u = load_loop maxsize f2 u.
Proof.
  revert f2 u. induction f1 as [|f1 IH]; intros f2 u H1 H2; [lia|].
  destruct f2 as [|f2]; [lia|]. simpl.
  destruct (step maxsize u) as [s|e|w] eqn:Es; try reflexivity.
  simpl. destruct s as [u'|v u']; [|reflexivity].
  apply step_input in Es. simpl in Es. apply IH; lia.
Qed.

Lemma load_loop_never_starves (f : nat) (u : Unpickler) :
  (length (input u) < f)%nat -> load_loop maxsize f u <> Beyond FuelExhausted.
Proof.
  revert u. induction f as [|f IH]; intros u H; [lia|]. simpl.
  destruct (step maxsize u) as [s|e|w] eqn:Es; simpl; try discriminate.
  - destruct s as [u'|v u']; [|discriminate].
    apply step_input in Es. simpl in Es. apply IH. lia.
  - intros Hw. inversion Hw; subst. unfold step in Es. destruct (input u) as [|key rest]; [discriminate|].
    destruct key; simpl in Es; try discriminate Es;
      unfold load_mark, load_stop, load_none, load_binint1, load_reduce, load_build,
        load_empty_tuple, load_tuple, load_binpersid, load_binput, load_binget,
        load_proto, load_newobj, load_tuple1, load_tuple2, load_tuple3,
        load_true, load_false, load_binunicode, load_global, star_args,
        read_octet, pop, continue, mbind, Outcome_bind in Es;
      simpl in Es;
      repeat match type of Es with
        | context [match ?x with _ => _ end] =>
            lazymatch x with
            | context [match _ with _ => _ end] => fail
            | _ => destruct x; simpl in Es; try discriminate Es
            end
        end.
Qed.

(** [load] always comes to an end within its fuel. *)
Lemma load_total (u : Unpickler) : load maxsize u <> Beyond FuelExhausted.
Proof. apply load_loop_never_starves. lia. Qed.

Lemma load_next (u u' : Unpickler) :
  step maxsize u = Ok (Next u') -> load maxsize u = load maxsize u'.
Proof.
  intros H. unfold load at 1. simpl. rewrite H. simpl.
  apply step_input in H. simpl in H. apply load_loop_fuel; lia.
Qed.

Lemma load_stopped (u u' : Unpickler) (v : Value) :
  step maxsize u = Ok (Stopped v u') -> load maxsize u = Ok (v, u').
Proof. intros H. unfold load. simpl. rewrite H. reflexivity. Qed.

Lemma load_raise (u : Unpickler) (e : PyExn) :
  step maxsize u = Raise e -> load maxsize u = Raise e.
Proof. intros H. unfold load. simpl. rewrite H. reflexivity. Qed.
End LoadFacts.

(** ** Class resolution *)

Lemma split_line_app (l rest : pybytes) :
  (forall b, In b l -> bv b <> 10) ->
  split_line (l ++ x0a :: rest) = (l ++ [x0a], rest).
Proof.
  induction l as [|b l IH]; intros H; simpl.
  - reflexivity.
  - destruct (Z.eqb_spec (bv b) 10) as [E|E]; [exfalso; apply (H b); simpl; auto|].
    rewrite IH; [reflexivity|]. intros b' Hb'. apply H. simpl. auto.
Qed.

Lemma readline_chomp_app (l rest : pybytes) (u : Unpickler) :
  (forall b, In b l -> bv b <> 10) ->
  readline_chomp (set_input (l ++ x0a :: rest) u) = (l, set_input rest u).
Proof.
  intros H. unfold readline_chomp. simpl. rewrite split_line_app by exact H.
  rewrite removelast_last. reflexivity.
Qed.

Lemma load_global_app (mline nline rest : pybytes) (module name : pystr) (u : Unpickler) :
  (forall b, In b mline -> bv b <> 10) ->
  (forall b, In b nline -> bv b <> 10) ->
  utf8_decode Strict mline = Decoded module ->
  utf8_decode Strict nline = Decoded name ->
  load_global (set_input (mline ++ x0a :: nline ++ x0a :: rest) u)
  = Ok (append (VClass (find_class module name)) (set_input rest u)).
Proof.
  intros Hm Hn Dm Dn. unfold load_global.
  rewrite readline_chomp_app by exact Hm. rewrite Dm.
  replace (set_input (nline ++ x0a :: rest) u)
    with (set_input (nline ++ x0a :: rest) (set_input rest u)) by reflexivity.
  rewrite readline_chomp_app by exact Hn. rewrite Dn. reflexivity.
Qed.

(** C2. For every pair of strings the class-resolution override returns
    the placeholder class that carries exactly that module and name: it
    is a total function of the pair, with no lookup and no way to fail,
    and its result is a class, not an instance.  On a stream that
    resolves a class and stops, interpretation returns that placeholder
    class and has constructed no instance at all. *)
Theorem find_class_returns_placeholder
    (maxsize : Z) (flag : bool) (mline nline : pybytes) (module name : pystr) :
  (forall b, In b mline -> bv b <> 10) ->
  (forall b, In b nline -> bv b <> 10) ->
  utf8_decode Strict mline = Decoded module ->
  utf8_decode Strict nline = Decoded name ->
  find_class module name = FakeClass.mk module name
  /\ (forall l, VClass (find_class module name) <> VObj l)
  /\ load maxsize
       (DumpUnpickler ("c"%byte :: mline ++ x0a :: nline ++ [x0a; "."%byte]) flag)
     = Ok (VClass (FakeClass.mk module name), DumpUnpickler [] flag).
Proof.
  intros Hm Hn Dm Dn. split; [reflexivity|]. split; [discriminate|].
  erewrite load_next; cycle 1.
  { unfold step. cbn [input DumpUnpickler dispatch continue].
    rewrite (load_global_app mline nline ["."%byte] module name) by assumption.
    reflexivity. }
  apply load_stopped. reflexivity.
Qed.

Lemma find_class_returns_placeholder_witness :
  find_class (py "m") (py "C") = FakeClass.mk (py "m") (py "C")
  /\ (forall l, VClass (find_class (py "m") (py "C")) <> VObj l)
  /\ load maxsize64
       (DumpUnpickler ("c"%byte :: pyb "m" ++ x0a :: pyb "C" ++ [x0a; "."%byte]) true)
     = Ok (VClass (FakeClass.mk (py "m") (py "C")), DumpUnpickler [] true).
Proof.
  apply find_class_returns_placeholder.
  - intros b [<-|[]]. vm_compute. discriminate.
  - intros b [<-|[]]. vm_compute. discriminate.
  - reflexivity.
  - reflexivity.
Defined.

(** ** String opcodes *)

Lemma take_cons {A} (n : Z) (x : A) (l : list A) :
  0 < n -> take n (x :: l) = x :: take (n - 1) l.
Proof. intros H. simpl. destruct (Z.leb_spec n 0); [lia | reflexivity]. Qed.

Lemma take_zero {A} (l : list A) : take 0 l = [].
Proof. by destruct l. Qed.

Lemma drop_z_cons {A} (n : Z) (x : A) (l : list A) :
  0 < n -> drop_z n (x :: l) = drop_z (n - 1) l.
Proof. intros H. simpl. destruct (Z.leb_spec n 0); [lia | reflexivity]. Qed.

Lemma drop_z_zero {A} (l : list A) : drop_z 0 l = l.
Proof. by destruct l. Qed.

(** Reading a known number of octets off the front. *)
Ltac read_front :=
  repeat first
    [ rewrite take_cons by lia | rewrite drop_z_cons by lia ];
  repeat match goal with
    | |- context [take ?n ?l] =>
        let z := eval vm_compute in n in
        lazymatch z with 0 => change (take n l) with (take 0 l); rewrite take_zero end
    | |- context [drop_z ?n ?l] =>
        let z := eval vm_compute in n in
        lazymatch z with 0 => change (drop_z n l) with (drop_z 0 l); rewrite drop_z_zero end
    end.

(** What [load_binunicode] does once the length prefix and the payload
    are known. *)
Lemma load_binunicode_unfold (maxsize : Z) (u : Unpickler)
    (b0 b1 b2 b3 : byte) (tail : pybytes) (strlen : Z) :
  input u = b0 :: b1 :: b2 :: b3 :: tail ->
  unpack_le32 [b0; b1; b2; b3] = Some strlen ->
  strlen <= maxsize ->
  load_binunicode maxsize u =
    match utf8_decode SurrogatePass (take strlen tail) with
    | Decoded s => Ok (append (VStr s) (set_input (drop_z strlen tail) u))
    | DecodeFailed exn =>
        if catch_invalid_utf8 u then
          Ok (append (VObj (length (heap u)))
                (set_heap (heap u ++ [invalid_utf8_sentinel exn])
                   (set_input (drop_z strlen tail) u)))
        else Raise (UnicodeDecodeErrorExn exn)
    end.
Proof.
  intros Hin Hlen Hmax. unfold load_binunicode, read. rewrite Hin.
  read_front. rewrite Hlen. destruct (Z.ltb_spec maxsize strlen) as [H|H]; [lia|].
  cbn [input set_input].
  destruct (utf8_decode SurrogatePass (take strlen tail)) as [s|exn]; [reflexivity|].
  cbn [catch_invalid_utf8 set_input]. destruct (catch_invalid_utf8 u); reflexivity.
Qed.

(** C1. For every string opcode whose payload fails to decode as UTF-8
    with surrogate-pass, the flag [catch_invalid_utf8] alone decides
    what happens.  When it is set, the turn of the loop succeeds: a new
    placeholder instance of "builtin"."UnicodeDecodeError", whose only
    constructor argument is the message of the decode error, is pushed
    onto the operand stack, and interpretation goes on with the input
    after the payload.  When it is not set, the decode error is raised
    out of the turn and out of [load]. *)
Theorem binunicode_invalid_utf8_decided_by_flag
    (maxsize : Z) (u : Unpickler) (b0 b1 b2 b3 : byte) (tail : pybytes)
    (strlen : Z) (exn : UnicodeDecodeError) :
  input u = "X"%byte :: b0 :: b1 :: b2 :: b3 :: tail ->
  unpack_le32 [b0; b1; b2; b3] = Some strlen ->
  strlen <= maxsize ->
  utf8_decode SurrogatePass (take strlen tail) = DecodeFailed exn ->
  let u' :=
    mkUnpickler (drop_z strlen tail) (VObj (length (heap u)) :: stack u)
      (metastack u) (memo u) (heap u ++ [invalid_utf8_sentinel exn])
      true (proto u) in
  (catch_invalid_utf8 u = true ->
     step maxsize u = Ok (Next u') /\ load maxsize u = load maxsize u')
  /\ (catch_invalid_utf8 u = false ->
     step maxsize u = Raise (UnicodeDecodeErrorExn exn)
     /\ load maxsize u = Raise (UnicodeDecodeErrorExn exn)).
Proof.
  intros Hin Hlen Hmax Hdec u'.
  assert (Hstep : step maxsize u =
            if catch_invalid_utf8 u then Ok (Next u')
            else Raise (UnicodeDecodeErrorExn exn)).
  { unfold step. rewrite Hin. cbn [dispatch]. unfold continue.
    rewrite (load_binunicode_unfold maxsize _ b0 b1 b2 b3 tail strlen);
      [|reflexivity|exact Hlen|exact Hmax].
    rewrite Hdec. cbn [catch_invalid_utf8 set_input].
    destruct (catch_invalid_utf8 u) eqn:Ef; [|reflexivity].
    subst u'. unfold mbind, Outcome_bind, append, set_heap, set_stack, set_input.
    cbn [input stack metastack memo heap catch_invalid_utf8 proto].
    rewrite Ef. reflexivity. }
  split; intros Hf; rewrite Hf in Hstep.
  - split; [exact Hstep|]. apply load_next. exact Hstep.
  - split; [exact Hstep|]. apply load_raise. exact Hstep.
Qed.

Lemma binunicode_invalid_utf8_decided_by_flag_witness :
  let bad := mkUDE 255 0 1 InvalidStartByte in
  let after := mkUnpickler (pyb ".") [VObj 0] [] ∅ [invalid_utf8_sentinel bad] true 0 in
  (step maxsize64 (DumpUnpickler (binunicode [xff] ++ pyb ".") true) = Ok (Next after)
   /\ load maxsize64 (DumpUnpickler (binunicode [xff] ++ pyb ".") true)
      = load maxsize64 after)
  /\ (step maxsize64 (DumpUnpickler (binunicode [xff] ++ pyb ".") false)
        = Raise (UnicodeDecodeErrorExn bad)
      /\ load maxsize64 (DumpUnpickler (binunicode [xff] ++ pyb ".") false)
        = Raise (UnicodeDecodeErrorExn bad)).
Proof.
  intros bad after. split.
  - apply (proj1 (binunicode_invalid_utf8_decided_by_flag maxsize64
             (DumpUnpickler (binunicode [xff] ++ pyb ".") true)
             x01 x00 x00 x00 [xff; "."%byte] 1 bad
             eq_refl eq_refl ltac:(unfold maxsize64; lia) eq_refl)).
    reflexivity.
  - apply (proj2 (binunicode_invalid_utf8_decided_by_flag maxsize64
             (DumpUnpickler (binunicode [xff] ++ pyb ".") false)
             x01 x00 x00 x00 [xff; "."%byte] 1 bad
             eq_refl eq_refl ltac:(unfold maxsize64; lia) eq_refl)).
    reflexivity.
Defined.

(** The run after the sentinel reaches STOP and returns it; the message
    it carries is the one the host gives for the payload. *)
Example sentinel_then_stop :
  load maxsize64 (DumpUnpickler (binunicode [xff] ++ pyb ".") true)
  = Ok (VObj 0,
        mkUnpickler [] [] [] ∅
          [FakeObject.mk (py "builtin") (py "UnicodeDecodeError")
             [VStr (py "'utf-8' codec can't decode byte 0xff in position 0: invalid start byte")]
             VNone]
          true 0).
Proof. reflexivity. Qed.

(** *** Lone surrogates *)

Lemma all_from_spec (n : nat) (lo : Z) (P : Z -> bool) :
  all_from n lo P = true ->
  forall z, lo <= z < lo + Z.of_nat n -> P z = true.
Proof.
  revert lo. induction n as [|n IH]; intros lo H z Hz; [lia|].
  simpl in H. apply andb_prop in H as [H0 Hrest].
  destruct (Z.eq_dec z lo) as [->|Hne]; [exact H0|].
  apply (IH (lo + 1) Hrest). lia.
Qed.

Lemma surrogates_round_trip (cp : Z) :
  is_surrogate cp = true -> surrogate_round_trip cp = true.
Proof.
  intros H. apply (all_from_spec 2048 55296).
  - vm_compute. reflexivity.
  - unfold is_surrogate in H. lia.
Qed.

(** C3. For every lone surrogate code point, a string opcode whose
    payload is its three-byte UTF-8 form decodes successfully, whether
    or not [catch_invalid_utf8] is set: the value pushed is the
    one-character string holding that very code point (so encoding it
    again gives the payload back), the heap gets no sentinel, and the
    flag plays no part.  The strict decoder rejects the same payload, so
    the acceptance is the work of surrogate-pass alone. *)
Theorem binunicode_lone_surrogate_preserved
    (maxsize : Z) (u : Unpickler) (cp : Z) (rest : pybytes) :
  is_surrogate cp = true ->
  3 <= maxsize ->
  input u = binunicode (utf8_encode_char cp) ++ rest ->
  utf8_decode SurrogatePass (utf8_encode_char cp) = Decoded [cp]
  /\ (exists exn, utf8_decode Strict (utf8_encode_char cp) = DecodeFailed exn)
  /\ step maxsize u
     = Ok (Next (mkUnpickler rest (VStr [cp] :: stack u) (metastack u) (memo u)
                   (heap u) (catch_invalid_utf8 u) (proto u))).
Proof.
  intros Hs Hmax Hin. pose proof (surrogates_round_trip cp Hs) as R.
  unfold surrogate_round_trip in R.
  destruct (utf8_encode_char cp) as [|c0 [|c1 [|c2 [|c3 l]]]] eqn:Eenc; try discriminate R.
  repeat (apply andb_prop in R as [R ?]).
  destruct (utf8_decode SurrogatePass [c0; c1; c2]) as [[|c [|c' s]]|] eqn:Ed;
    try discriminate.
  destruct (utf8_decode Strict [c0; c1; c2]) as [|exn] eqn:Es; try discriminate.
  assert (c = cp) as -> by lia.
  split; [reflexivity|]. split; [by exists exn|].
  unfold step. rewrite Hin. unfold binunicode.
  cbn [app dispatch]. unfold continue.
  change (pack_le32 (len [c0; c1; c2])) with [x03; x00; x00; x00].
  cbn [app].
  rewrite (load_binunicode_unfold maxsize _ x03 x00 x00 x00 (c0 :: c1 :: c2 :: rest) 3);
    [|reflexivity|reflexivity|exact Hmax].
  read_front. rewrite Ed. reflexivity.
Qed.

Lemma binunicode_lone_surrogate_preserved_witness :
  utf8_decode SurrogatePass (utf8_encode_char 56832) = Decoded [56832]
  /\ (exists exn, utf8_decode Strict (utf8_encode_char 56832) = DecodeFailed exn)
  /\ step maxsize64 (DumpUnpickler (binunicode [xed; xb8; x80] ++ pyb ".") false)
     = Ok (Next (mkUnpickler (pyb ".") [VStr [56832]] [] ∅ [] false 0)).
Proof.
  apply (binunicode_lone_surrogate_preserved maxsize64
           (DumpUnpickler (binunicode [xed; xb8; x80] ++ pyb ".") false)
           56832 (pyb "."));
    [reflexivity | unfold maxsize64; lia | reflexivity].
Defined.

(** The same payload with the flag set gives the same string. *)
Example lone_surrogate_with_flag :
  load maxsize64 (DumpUnpickler (binunicode [xed; xb8; x80] ++ pyb ".") true)
  = Ok (VStr [56832], DumpUnpickler [] true).
Proof. reflexivity. Qed.

(** ** The state of a placeholder instance *)

(** Splits a turn of the loop, given as a hypothesis, into the cases of
    its handler. *)
Ltac turn_cases H :=
  unfold load_mark, load_stop, load_none, load_binint1, load_reduce, load_build,
    load_empty_tuple, load_tuple, load_binpersid, load_binput, load_binget,
    load_proto, load_newobj, load_tuple1, load_tuple2, load_tuple3,
    load_true, load_false, load_binunicode, load_global, star_args,
    read_octet, pop, read, readline_chomp, alloc, append,
    continue, mbind, Outcome_bind in H;
  cbn beta iota in H;
  repeat (match type of H with
          | context [match ?x with _ => _ end] =>
              lazymatch x with
              | context [match _ with _ => _ end] => fail
              | _ => destruct x eqn:?; try discriminate H
              end
          end; cbn beta iota in H).

Lemma run_reaches (maxsize : Z) (n : nat) (u u' : Unpickler) :
  run maxsize n u = Some u' -> reaches maxsize u u'.
Proof.
  revert u. induction n as [|n IH]; intros u H; simpl in H.
  - inversion H. constructor.
  - destruct (step maxsize u) as [[u1|v u1]|e|w] eqn:E; try discriminate.
    eapply reaches_step; [exact E | by apply IH].
Qed.


(** A turn of the loop through one of the opcodes whose handler is
    embedded here: an opcode other than BUILD leaves the heap as it is
    or adds one new instance without a state, and BUILD replaces the
    state of the instance under the top of the stack. *)
Lemma embedded_turn_heap_effect
    (maxsize : Z) (u u' : Unpickler) (key : byte) (rest : pybytes) :
  input u = key :: rest ->
  step maxsize u = Ok (Next u') ->
  (key <> "b"%byte ->
     heap u' = heap u
     \/ exists o, heap u' = heap u ++ [o] /\ FakeObject.state o = VNone)
  /\ (key = "b"%byte ->
     exists state l inst below,
       stack u = state :: VObj l :: below
       /\ heap u !! l = Some inst
       /\ heap u' = <[l := FakeObject.mk (FakeObject.module inst) (FakeObject.name inst)
                            (FakeObject.args inst) state]> (heap u)).
Proof.
  intros Hin Hstep. unfold step in Hstep. rewrite Hin in Hstep.
  split; intros Hk.
  - destruct key; try congruence; cbn [dispatch] in Hstep; try discriminate Hstep;
      turn_cases Hstep; inversion Hstep; subst; cbn;
      first [ left; reflexivity | right; eexists; split; reflexivity ].
  - subst key. cbn [dispatch] in Hstep. turn_cases Hstep.
    inversion Hstep; subst. cbn in *. subst. eauto 10.
Qed.



(** ** The command line *)

Section MainFacts.
Variable maxsize : Z.
Variable fnmatch : list Z -> list Z -> bool.
Variable pprint : list FakeObject.t -> Value -> list (list Z) * Outcome unit.
Variable files : gmap (list Z) FileNode.


Lemma contains_app (c : Z) (a b : list Z) :
  contains c (a ++ b) = contains c a || contains c b.
Proof. unfold contains. apply existsb_app. Qed.

Lemma contains_count (c : Z) (s : list Z) :
  contains c s = false <-> count_occ Z.eq_dec s c = 0%nat.
Proof.
  unfold contains. induction s as [|x s IH]; simpl; [done|].
  destruct (Z.eqb_spec c x) as [->|Hne].
  - destruct (Z.eq_dec x x); [|done]. split; [discriminate | lia].
  - destruct (Z.eq_dec x c); [congruence|]. exact IH.
Qed.

Lemma split_once_app (sep : Z) (a b : list Z) :
  contains sep a = false -> split_once sep (a ++ sep :: b) = Some (a, b).
Proof.
  unfold contains. induction a as [|x a IH]; simpl; intros H.
  - by rewrite Z.eqb_refl.
  - apply orb_false_elim in H as [Hx Ha].
    rewrite Z.eqb_sym, Hx. by rewrite IH.
Qed.

Lemma split_once_inv (sep : Z) (s a b : list Z) :
  split_once sep s = Some (a, b) -> s = a ++ sep :: b /\ contains sep a = false.
Proof.
  revert a. induction s as [|x s IH]; intros a H; simpl in H; [discriminate|].
  destruct (Z.eqb_spec x sep) as [->|Hne].
  - inversion H; subst. done.
  - destruct (split_once sep s) as [[a' b']|] eqn:E; [|discriminate].
    inversion H; subst. destruct (IH a' eq_refl) as [-> Ha].
    split; [reflexivity|]. unfold contains in *. simpl. rewrite Ha.
    destruct (Z.eqb_spec sep x); [congruence | done].
Qed.

Lemma split_once_some (sep : Z) (s : list Z) :
  contains sep s = true -> exists a b, split_once sep s = Some (a, b).
Proof.
  unfold contains. induction s as [|x s IH]; simpl; [discriminate|].
  intros H. destruct (Z.eqb_spec x sep) as [->|Hne]; [eauto|].
  destruct (Z.eqb_spec sep x); [congruence|]. simpl in H.
  destruct (IH H) as (a & b & ->). eauto.
Qed.

(** What [main] does on a locator with a separator. *)
Lemma main_archive_locator (prog zfname mname : list Z) (output_stream : option nat) :
  contains 64 zfname = false ->
  main maxsize fnmatch pprint files [prog; zfname ++ 64 :: mname] output_stream = main_zip maxsize fnmatch pprint files zfname mname output_stream.
Proof.
  intros H. unfold main. cbn [len length Z.of_nat nth].
  change (negb (Z.of_nat 2 =? 2)) with false. cbn iota.
  assert (contains 64 (zfname ++ 64 :: mname) = true) as ->.
  { rewrite contains_app. unfold contains at 2. simpl. apply orb_true_r. }
  cbn [negb]. by rewrite split_once_app.
Qed.

(** [dump] writes to the sink and does nothing else. *)
Lemma dump_only_writes (in_stream : list byte) (out : option nat) (e : Event) :
  In e (dump maxsize pprint in_stream out).1 -> exists t, e = Write out t.
Proof.
  unfold dump.
  destruct (load maxsize (DumpUnpickler in_stream false)) as [[value u]|exn|w];
    simpl; try tauto.
  destruct (pprint (heap u) value) as [texts r]. simpl.
  rewrite in_map_iff. intros (t & <- & _). eauto.
Qed.

Lemma scan_members_first (mname : list Z) (before after : list ZipInfo)
    (info : ZipInfo) (i : nat) (out : option nat) :
  (forall m, In m before -> fnmatch (filename m) mname = false) ->
  fnmatch (filename info) mname = true ->
  scan_members maxsize fnmatch pprint mname i (before ++ info :: after) out
  = let '(evs, r) := dump maxsize pprint (member_bytes info) out in
    (OpenMember (i + length before) (filename info) :: evs, _ ← r; Ok true).
Proof.
  revert i. induction before as [|m before IH]; intros i Hb Hi; simpl.
  - rewrite Hi. by rewrite Nat.add_0_r.
  - rewrite (Hb m) by (simpl; auto).
    rewrite IH by (intros; try apply Hb; simpl; auto).
    by replace (S i + length before)%nat with (i + S (length before))%nat by lia.
Qed.

Lemma scan_members_none (mname : list Z) (infos : list ZipInfo)
    (i : nat) (out : option nat) :
  (forall m, In m infos -> fnmatch (filename m) mname = false) ->
  scan_members maxsize fnmatch pprint mname i infos out = ([], Ok false).
Proof.
  revert i. induction infos as [|m infos IH]; intros i H; simpl; [done|].
  rewrite (H m) by (simpl; auto). apply IH. intros; apply H; simpl; auto.
Qed.

(** C7. Whenever the argument vector does not hold exactly the program
    name and one locator, [main] without an output sink writes the
    usage text to the error stream and returns 2, and [main] with an
    output sink raises "Pass argv of length 2." and writes nothing.
    The usage text names the three locator forms and says that only
    the first match of a pattern is shown. *)
Theorem main_wrong_argument_count (argv : list (list Z)) (output_stream : option nat) :
  length argv <> 2%nat ->
  main maxsize fnmatch pprint files argv output_stream
    = match output_stream with
      | None => (map StderrWrite usage, Ok 2)
      | Some _ => ([], Raise (Exception (py "Pass argv of length 2.")))
      end
  /\ In (py "    path to a pickle file" ++ [10]) usage
  /\ In (py "    file.zip@member.pkl" ++ [10]) usage
  /\ In (py "    file.zip@*/pattern.*" ++ [10]) usage
  /\ In (py "      (only first match will be shown)" ++ [10]) usage.
Proof.
  intros H. split.
  - unfold main, len.
    destruct (Z.eqb_spec (Z.of_nat (length argv)) 2) as [E|E]; [lia|].
    by destruct output_stream.
  - unfold usage. simpl. tauto.
Qed.

(** C8, amended. For every locator [archive@pattern] whose pattern
    contains the character [*], [main] goes through the members of the
    archive in stored order and dumps the first one whose name the
    pattern matches: that member is the only one opened, whatever
    comes after it, and the run ends as its dump ends.  When no member
    matches, [main] raises "Could not find member matching ..." after
    opening the archive, and nothing is written. *)
Theorem glob_first_match_wins (prog zfname mname : list Z) (node : FileNode)
    (infos : list ZipInfo) (output_stream : option nat) :
  contains 64 zfname = false ->
  contains 42 mname = true ->
  files !! zfname = Some node ->
  archive node = Some infos ->
  (forall before info after,
      infos = before ++ info :: after ->
      (forall m, In m before -> fnmatch (filename m) mname = false) ->
      fnmatch (filename info) mname = true ->
      main maxsize fnmatch pprint files [prog; zfname ++ 64 :: mname] output_stream
        = (let '(evs, r) := dump maxsize pprint (member_bytes info) output_stream in
           (OpenArchive zfname :: OpenMember (length before) (filename info) :: evs,
            _ ← r; Ok 0))
      /\ forall i name,
           In (OpenMember i name) (main maxsize fnmatch pprint files [prog; zfname ++ 64 :: mname] output_stream).1 ->
           i = length before /\ name = filename info)
  /\ ((forall m, In m infos -> fnmatch (filename m) mname = false) ->
      main maxsize fnmatch pprint files [prog; zfname ++ 64 :: mname] output_stream
        = ([OpenArchive zfname],
           Raise (Exception (py "Could not find member matching " ++ mname
                             ++ py " in " ++ zfname)))).
Proof.
  intros Hz Hm Hf Ha. rewrite main_archive_locator by exact Hz.
  unfold main_zip. rewrite Hf, Ha, Hm. cbn [negb].
  split.
  - intros before info after -> Hb Hi.
    rewrite (scan_members_first mname before after info 0 output_stream Hb Hi).
    pose proof (dump_only_writes (member_bytes info) output_stream) as Hw.
    destruct (dump maxsize pprint (member_bytes info) output_stream) as [evs r]. simpl in Hw.
    split.
    + f_equal. by destruct r.
    + simpl. intros i name [Hin|[Hin|Hin]].
      * discriminate.
      * by inversion Hin.
      * destruct (Hw _ Hin) as [t Ht]. discriminate.
  - intros Hnone. by rewrite scan_members_none.
Qed.

(** C10. For every locator with two or more separators [@], [main]
    splits at the first one only: the archive path is the text before
    the first separator, which holds none, and the member spec is all
    that follows, separators included. *)
Theorem main_splits_at_first_separator (prog fname : list Z) (output_stream : option nat) :
  (2 <= count_occ Z.eq_dec fname 64%Z)%nat ->
  exists zfname mname,
    fname = zfname ++ 64 :: mname
    /\ contains 64 zfname = false
    /\ contains 64 mname = true
    /\ split_once 64 fname = Some (zfname, mname)
    /\ main maxsize fnmatch pprint files [prog; fname] output_stream = main_zip maxsize fnmatch pprint files zfname mname output_stream.
Proof.
  intros Hc.
  assert (contains 64 fname = true) as Hin.
  { destruct (contains 64 fname) eqn:E; [done|]. apply contains_count in E. lia. }
  destruct (split_once_some _ _ Hin) as (zfname & mname & Hs).
  destruct (split_once_inv _ _ _ _ Hs) as [-> Hz].
  exists zfname, mname. repeat split; try done.
  - destruct (contains 64 mname) eqn:E; [done|].
    apply contains_count in E. apply contains_count in Hz.
    rewrite count_occ_app in Hc. simpl in Hc.
    destruct (Z.eq_dec 64 64); [|done]. lia.
  - by apply main_archive_locator.
Qed.
End MainFacts.

Lemma main_wrong_argument_count_witness :
  main maxsize64 fnmatch_posix pprint_fits sample_files [py "show_pickle"] None
    = (map StderrWrite usage, Ok 2)
  /\ main maxsize64 fnmatch_posix pprint_fits sample_files
       [py "show_pickle"; py "a.pkl"; py "b.pkl"] (Some 1%nat)
    = ([], Raise (Exception (py "Pass argv of length 2."))).
Proof.
  split.
  - apply (main_wrong_argument_count maxsize64 fnmatch_posix pprint_fits sample_files
             [py "show_pickle"] None). simpl. lia.
  - apply (main_wrong_argument_count maxsize64 fnmatch_posix pprint_fits sample_files
             [py "show_pickle"; py "a.pkl"; py "b.pkl"] (Some 1%nat)). simpl. lia.
Defined.

(** C8, as stated, does not hold: [?.pkl] is a glob pattern that matches
    the stored member [a.pkl], yet [main] takes it for a member name and
    raises [KeyError] without opening any member. *)
Lemma glob_without_star_is_a_member_name :
  fnmatch_posix (py "a.pkl") (py "?.pkl") = true
  /\ main maxsize64 fnmatch_posix pprint_fits sample_files
       [py "show_pickle"; py "a.zip@?.pkl"] None
     = ([OpenArchive (py "a.zip")], Raise (KeyError (py "?.pkl"))).
Proof. split; vm_compute; reflexivity. Qed.

Lemma glob_first_match_wins_witness :
  main maxsize64 fnmatch_posix pprint_fits sample_files
    [py "show_pickle"; py "a.zip@*.pkl"] None
  = ([OpenArchive (py "a.zip"); OpenMember 1 (py "a.pkl");
      Write None (py "m.C()"); Write None [10]], Ok 0).
Proof.
  pose proof (glob_first_match_wins maxsize64 fnmatch_posix pprint_fits sample_files
                (py "show_pickle") (py "a.zip") (py "*.pkl")
                (mkFileNode (pyb "PK")
                   (Some [ mkZipInfo (py "readme.txt") (pyb "hello");
                           mkZipInfo (py "a.pkl") stream_m_C;
                           mkZipInfo (py "b.pkl") stream_seven ]))
                _ None eq_refl eq_refl eq_refl eq_refl) as [Hfirst _].
  destruct (Hfirst [mkZipInfo (py "readme.txt") (pyb "hello")]
              (mkZipInfo (py "a.pkl") stream_m_C)
              [mkZipInfo (py "b.pkl") stream_seven] eq_refl) as [Hmain _].
  - intros m [<-|[]]. reflexivity.
  - reflexivity.
  - exact Hmain.
Defined.

Lemma main_splits_at_first_separator_witness :
  exists zfname mname,
    py "a.zip@dir@x.pkl" = zfname ++ 64 :: mname
    /\ contains 64 zfname = false
    /\ contains 64 mname = true
    /\ split_once 64 (py "a.zip@dir@x.pkl") = Some (zfname, mname)
    /\ main maxsize64 fnmatch_posix pprint_fits sample_files
         [py "show_pickle"; py "a.zip@dir@x.pkl"] None
       = main_zip maxsize64 fnmatch_posix pprint_fits sample_files zfname mname None.
Proof.
  apply (main_splits_at_first_separator maxsize64 fnmatch_posix pprint_fits sample_files
           (py "show_pickle") (py "a.zip@dir@x.pkl") None).
  vm_compute. lia.
Defined.

(** The split of that locator, spelled out. *)
Example split_two_separators :
  split_once 64 (py "a.zip@dir@x.pkl") = Some (py "a.zip", py "dir@x.pkl").
Proof. reflexivity. Qed.

(** * Further properties of the program *)

(** ** Rendering *)

(** With a printer that does not fail, [pp_format] succeeds exactly when
    the instance lacks arguments or lacks a state: the combination of
    both is the only case it rejects. *)
Theorem pp_format_succeeds_unless_args_and_state
    (repr : Value -> list Z) (Context : Type) (printer : Printer Context)
    (obj : FakeObject.t) (stream : list (list Z))
    (indent allowance : Z) (context : Context) (level : Z) :
  (forall v s i a c l, (_format Context printer v s i a c l).2 = Ok tt) ->
  (pp_format repr Context printer obj stream indent allowance context level).2 = Ok tt
  <-> (FakeObject.args obj = [] \/ FakeObject.state obj = VNone).
Proof.
  intros Hp. unfold pp_format, not_args.
  destruct (FakeObject.args obj) as [|a rest] eqn:Ea;
    destruct (FakeObject.state obj) eqn:Es; cbn [is_none andb];
    try (split; [auto | reflexivity]);
    try (split; [auto | intros _; apply Hp]);
    try (split; [intros H; discriminate H | intros [H|H]; discriminate H]);
    (split; [auto|]; intros _;
     match goal with
     | |- context [_format Context printer ?v ?s ?i ?al ?c ?l] =>
         pose proof (Hp v s i al c l) as Hq;
         destruct (_format Context printer v s i al c l) as [s' r']
     end; simpl in Hq; subst r'; reflexivity).
Qed.

Lemma pp_format_succeeds_unless_args_and_state_witness :
  (pp_format (repr_value 8 []) unit printer_echo
     (FakeObject.mk (py "m") (py "C") [] (VInt 2)) [] 0 0 tt 0).2 = Ok tt
  <-> (@nil Value = [] \/ VInt 2 = VNone).
Proof.
  apply (pp_format_succeeds_unless_args_and_state (repr_value 8 []) unit printer_echo
           (FakeObject.mk (py "m") (py "C") [] (VInt 2)) [] 0 0 tt 0).
  intros. reflexivity.
Defined.

(** With a printer that only appends to the stream, [pp_format] only
    appends too: what was written before stays as it is.  It writes
    nothing exactly in the case it rejects. *)
Theorem pp_format_only_appends
    (repr : Value -> list Z) (Context : Type) (printer : Printer Context)
    (obj : FakeObject.t) (stream : list (list Z))
    (indent allowance : Z) (context : Context) (level : Z) :
  (forall v s i a c l, exists suffix, (_format Context printer v s i a c l).1 = s ++ suffix) ->
  exists suffix,
    (pp_format repr Context printer obj stream indent allowance context level).1
      = stream ++ suffix
    /\ (suffix = [] <-> FakeObject.args obj <> [] /\ FakeObject.state obj <> VNone).
Proof.
  intros Hp. unfold pp_format, not_args.
  destruct (FakeObject.args obj) as [|a rest] eqn:Ea;
    destruct (is_none (FakeObject.state obj)) eqn:En; cbn [andb].
  - eexists. split; [reflexivity|]. split; [discriminate | intros [H _]; by destruct H].
  - match goal with
    | |- context [_format Context printer ?v ?s ?i ?al ?c ?l] =>
        destruct (Hp v s i al c l) as [suffix Hs];
        destruct (_format Context printer v s i al c l) as [s' r']
    end.
    simpl in Hs. subst s'.
    exists ([FakeObject.module obj ++ py "." ++ FakeObject.name obj ++ py "()(state=" ++ [10]]
            ++ [spaces (indent + _indent_per_level Context printer)] ++ suffix
            ++ match r' with Ok _ => [py ")"] | _ => [] end).
    split.
    + destruct r'; simpl; rewrite <- ?app_assoc; simpl; rewrite ?app_nil_r; reflexivity.
    + split; [discriminate | intros [H _]; by destruct H].
  - match goal with
    | |- context [_format Context printer ?v ?s ?i ?al ?c ?l] =>
        destruct (Hp v s i al c l) as [suffix Hs]
    end.
    rewrite Hs. rewrite <- app_assoc. eexists. split; [reflexivity|].
    split; [discriminate|]. intros [_ H]. destruct (FakeObject.state obj); done.
  - exists []. split; [by rewrite app_nil_r|]. split; [|done].
    intros _. split; [discriminate|]. intros H. rewrite H in En. discriminate.
Qed.

Lemma pp_format_only_appends_witness :
  exists suffix,
    (pp_format (repr_value 8 []) unit printer_echo
       (FakeObject.mk (py "m") (py "C") [VInt 1] VNone) [py "before"] 0 0 tt 0).1
      = [py "before"] ++ suffix
    /\ (suffix = [] <-> [VInt 1] <> [] /\ VNone <> VNone).
Proof.
  apply (pp_format_only_appends (repr_value 8 []) unit printer_echo
           (FakeObject.mk (py "m") (py "C") [VInt 1] VNone) [py "before"] 0 0 tt 0).
  intros. simpl. eauto.
Defined.

(** ** Opcodes that build placeholders *)

(** BINPERSID never inspects the persistent id: whatever value is on top
    of the stack is replaced by a new ["pers"."obj"] placeholder holding
    it as its only argument; the only failure is an empty stack. *)
Theorem binpersid_wraps_any_pid (maxsize : Z) (u : Unpickler) (rest : list byte) :
  input u = "Q"%byte :: rest ->
  step maxsize u
  = match stack u with
    | [] => Raise IndexError
    | pid :: below =>
        Ok (Next (mkUnpickler rest (VObj (length (heap u)) :: below) (metastack u)
                    (memo u)
                    (heap u ++ [FakeObject.mk (py "pers") (py "obj") [pid] VNone])
                    (catch_invalid_utf8 u) (proto u)))
    end.
Proof.
  intros Hin. unfold step. rewrite Hin. cbn [dispatch].
  unfold load_binpersid, pop, continue, mbind, Outcome_bind.
  cbn [stack set_input]. destruct (stack u) as [|pid below]; reflexivity.
Qed.

Lemma binpersid_wraps_any_pid_witness :
  step maxsize64 (mkUnpickler (pyb "Q.") [VTuple [VStr (py "storage"); VInt 0]] [] ∅ [] false 2)
  = Ok (Next (mkUnpickler (pyb ".") [VObj 0] [] ∅
                [FakeObject.mk (py "pers") (py "obj")
                   [VTuple [VStr (py "storage"); VInt 0]] VNone]
                false 2)).
Proof.
  apply (binpersid_wraps_any_pid maxsize64
           (mkUnpickler (pyb "Q.") [VTuple [VStr (py "storage"); VInt 0]] [] ∅ [] false 2)
           (pyb ".")).
  reflexivity.
Defined.

(** REDUCE and NEWOBJ agree on a placeholder class: with an argument
    tuple over the class on the stack, either opcode replaces the two by
    a new instance of that module and name holding exactly the tuple's
    items, with no state.  The class token that [__new__] receives first
    never shows up among the arguments. *)
Theorem reduce_and_newobj_agree
    (maxsize : Z) (u : Unpickler) (rest : list byte)
    (c : FakeClass.t) (items below : list Value) :
  stack u = VTuple items :: VClass c :: below ->
  let built :=
    Ok (Next (mkUnpickler rest (VObj (length (heap u)) :: below) (metastack u) (memo u)
                (heap u ++ [FakeObject.mk (FakeClass.module c) (FakeClass.name c)
                              items VNone])
                (catch_invalid_utf8 u) (proto u))) in
  step maxsize (set_input ("R"%byte :: rest) u) = built
  /\ step maxsize (set_input (x81 :: rest) u) = built.
Proof.
  intros Hs built. subst built. unfold step. cbn [input set_input dispatch].
  unfold load_reduce, load_newobj, pop, continue, mbind, Outcome_bind.
  cbn [stack set_input set_stack]. rewrite Hs. split; reflexivity.
Qed.

Lemma reduce_and_newobj_agree_witness :
  let u := mkUnpickler [] [VTuple [VInt 1; VInt 2]; VClass (FakeClass.mk (py "m") (py "C"))]
             [] ∅ [] false 2 in
  let built :=
    Ok (Next (mkUnpickler (pyb ".") [VObj 0] [] ∅
                [FakeObject.mk (py "m") (py "C") [VInt 1; VInt 2] VNone] false 2)) in
  step maxsize64 (set_input ("R"%byte :: pyb ".") u) = built
  /\ step maxsize64 (set_input (x81 :: pyb ".") u) = built.
Proof.
  intros u built.
  apply (reduce_and_newobj_agree maxsize64 u (pyb ".") (FakeClass.mk (py "m") (py "C"))
           [VInt 1; VInt 2] []).
  reflexivity.
Defined.

(** Setting the state of an instance to [None] while it has none is not
    observable: BUILD with [None] on such an instance pops the [None]
    and leaves the heap exactly as it was. *)
Theorem build_none_on_unset_changes_nothing
    (maxsize : Z) (u : Unpickler) (rest : list byte)
    (l : nat) (inst : FakeObject.t) (below : list Value) :
  input u = "b"%byte :: rest ->
  stack u = VNone :: VObj l :: below ->
  heap u !! l = Some inst ->
  FakeObject.state inst = VNone ->
  step maxsize u
  = Ok (Next (mkUnpickler rest (VObj l :: below) (metastack u) (memo u) (heap u)
                (catch_invalid_utf8 u) (proto u))).
Proof.
  intros Hin Hs Hl Hst. unfold step. rewrite Hin. cbn [dispatch].
  unfold load_build, pop, continue, mbind, Outcome_bind.
  unfold set_stack, set_input.
  cbn [input stack metastack memo heap catch_invalid_utf8 proto]. rewrite Hs.
  cbn [input stack metastack memo heap catch_invalid_utf8 proto]. rewrite Hl.
  assert (FakeObject.__setstate__ inst VNone = inst) as ->.
  { destruct inst. simpl in Hst. subst. reflexivity. }
  rewrite list_insert_id by exact Hl. reflexivity.
Qed.

Lemma build_none_on_unset_changes_nothing_witness :
  step maxsize64
    (mkUnpickler (pyb "b.") [VNone; VObj 0] [] ∅
       [FakeObject.mk (py "m") (py "C") [] VNone] false 2)
  = Ok (Next (mkUnpickler (pyb ".") [VObj 0] [] ∅
                [FakeObject.mk (py "m") (py "C") [] VNone] false 2)).
Proof.
  apply (build_none_on_unset_changes_nothing maxsize64
           (mkUnpickler (pyb "b.") [VNone; VObj 0] [] ∅
              [FakeObject.mk (py "m") (py "C") [] VNone] false 2)
           (pyb ".") 0%nat (FakeObject.mk (py "m") (py "C") [] VNone) []);
    reflexivity.
Defined.

(** ** The string opcode *)

(** A successful [load_binunicode] pushes exactly one value and touches
    nothing else of the interpreter: either a string, with the heap
    unchanged, or, only when [catch_invalid_utf8] is set, a reference to
    one new sentinel appended to the heap. *)
Theorem load_binunicode_frame (maxsize : Z) (u u' : Unpickler) :
  load_binunicode maxsize u = Ok u' ->
  metastack u' = metastack u /\ memo u' = memo u /\ proto u' = proto u
  /\ catch_invalid_utf8 u' = catch_invalid_utf8 u
  /\ ((exists s, stack u' = VStr s :: stack u /\ heap u' = heap u)
      \/ (catch_invalid_utf8 u = true
          /\ exists exn, stack u' = VObj (length (heap u)) :: stack u
                         /\ heap u' = heap u ++ [invalid_utf8_sentinel exn])).
Proof.
  unfold load_binunicode, read. cbn beta iota.
  destruct (unpack_le32 (take 4 (input u))) as [strlen|]; [|discriminate].
  destruct (maxsize <? strlen); [discriminate|].
  destruct (utf8_decode SurrogatePass _) as [s|exn].
  - intros H. inversion H; subst. cbn. repeat split; eauto.
  - cbn [catch_invalid_utf8 set_input].
    destruct (catch_invalid_utf8 u) eqn:Ef; [|discriminate].
    intros H. inversion H; subst. cbn. rewrite Ef. repeat split. right. eauto.
Qed.

Lemma load_binunicode_frame_witness :
  let u := DumpUnpickler (pack_le32 2 ++ pyb "hi" ++ pyb ".") false in
  let u' := mkUnpickler (pyb ".") [VStr (py "hi")] [] ∅ [] false 0 in
  metastack u' = metastack u /\ memo u' = memo u /\ proto u' = proto u
  /\ catch_invalid_utf8 u' = catch_invalid_utf8 u
  /\ ((exists s, stack u' = VStr s :: stack u /\ heap u' = heap u)
      \/ (catch_invalid_utf8 u = true
          /\ exists exn, stack u' = VObj (length (heap u)) :: stack u
                         /\ heap u' = heap u ++ [invalid_utf8_sentinel exn])).
Proof.
  intros u u'. apply (load_binunicode_frame maxsize64 u u'). reflexivity.
Defined.

(** A length prefix above [sys.maxsize] is rejected before any payload
    is read or decoded, whatever the flag and the payload are. *)
Theorem load_binunicode_rejects_oversize
    (maxsize : Z) (u : Unpickler) (b0 b1 b2 b3 : byte) (tail : list byte) (strlen : Z) :
  input u = b0 :: b1 :: b2 :: b3 :: tail ->
  unpack_le32 [b0; b1; b2; b3] = Some strlen ->
  maxsize < strlen ->
  load_binunicode maxsize u = Raise (Exception (py "String too long.")).
Proof.
  intros Hin Hlen Hbig. unfold load_binunicode, read. rewrite Hin. read_front.
  rewrite Hlen. destruct (Z.ltb_spec maxsize strlen) as [H|H]; [reflexivity | lia].
Qed.

Lemma load_binunicode_rejects_oversize_witness :
  load_binunicode maxsize32 (DumpUnpickler [x00; x00; x00; x80; x41] true)
  = Raise (Exception (py "String too long.")).
Proof.
  apply (load_binunicode_rejects_oversize maxsize32
           (DumpUnpickler [x00; x00; x00; x80; x41] true)
           x00 x00 x00 x80 [x41] 2147483648);
    [reflexivity | reflexivity | unfold maxsize32; lia].
Defined.

(** When fewer than four octets are left for the length prefix, the
    handler fails in [struct.unpack] and pushes nothing. *)
Theorem load_binunicode_short_prefix (maxsize : Z) (u : Unpickler) :
  (length (input u) < 4)%nat ->
  load_binunicode maxsize u = Raise StructError.
Proof.
  intros H. unfold load_binunicode, read. cbn beta iota.
  destruct (input u) as [|b0 [|b1 [|b2 [|b3 tail]]]]; try reflexivity.
  simpl in H. lia.
Qed.

Lemma load_binunicode_short_prefix_witness :
  load_binunicode maxsize64 (DumpUnpickler [x02; x00; x00] true) = Raise StructError.
Proof.
  apply (load_binunicode_short_prefix maxsize64 (DumpUnpickler [x02; x00; x00] true)).
  simpl. lia.
Defined.

(** ** Instances over a whole run *)

Lemma step_keeps_identity (maxsize : Z) (u u' : Unpickler) (l : nat) (o : FakeObject.t) :
  step maxsize u = Ok (Next u') ->
  heap u !! l = Some o ->
  exists o', heap u' !! l = Some o' /\ same_identity o o'.
Proof.
  intros Hstep Hl. unfold step in Hstep.
  destruct (input u) as [|key rest] eqn:Hin; [discriminate|].
  assert (Hsame : same_identity o o) by (repeat split).
  destruct key; cbn [dispatch] in Hstep; try discriminate Hstep;
    turn_cases Hstep; inversion Hstep; subst; cbn in *;
    try (exists o; split; [first [exact Hl | by apply lookup_app_l_Some] | exact Hsame]).
  match goal with
  | H : heap u !! ?l0 = Some ?inst |- context [<[?l0 := ?new]> (heap u)] =>
      destruct (decide (l = l0)) as [->|Hne];
        [ exists new; split;
          [ apply list_lookup_insert_eq; by eapply lookup_lt_Some
          | rewrite Hl in H; inversion H; subst; repeat split ]
        | exists o; split; [by rewrite list_lookup_insert_ne | exact Hsame] ]
  end.
Qed.

(** On a stream of the opcodes whose handlers are embedded here (PROTO,
    MARK, STOP, NONE, NEWTRUE, NEWFALSE, BININT1, BINUNICODE, GLOBAL,
    REDUCE, NEWOBJ, BUILD, EMPTY_TUPLE, TUPLE, TUPLE1, TUPLE2, TUPLE3,
    BINPERSID, BINPUT, BINGET), over any number of turns of the loop an
    instance stays at its heap location with its module, name and
    arguments: only its state can differ later on, and the heap never
    shrinks. *)
Theorem instances_keep_identity
    (maxsize : Z) (u u' : Unpickler) (l : nat) (o : FakeObject.t) :
  reaches maxsize u u' ->
  heap u !! l = Some o ->
  exists o', heap u' !! l = Some o' /\ same_identity o o'.
Proof.
  intros Hr. revert o. induction Hr as [u|u u1 u2 Hstep Hr IH]; intros o Hl.
  - exists o. split; [exact Hl | repeat split].
  - destruct (step_keeps_identity _ _ _ _ _ Hstep Hl) as (o1 & Hl1 & H1).
    destruct (IH o1 Hl1) as (o2 & Hl2 & H2).
    exists o2. split; [exact Hl2|].
    destruct H1 as (? & ? & ?), H2 as (? & ? & ?). repeat split; congruence.
Qed.

Lemma instances_keep_identity_witness :
  exists o',
    heap (mkUnpickler (pyb ".") [VObj 0] [] ∅
            [FakeObject.mk (py "m") (py "C") [] (VInt 2)] false 0) !! 0%nat = Some o'
    /\ same_identity (FakeObject.mk (py "m") (py "C") [] VNone) o'.
Proof.
  apply (instances_keep_identity maxsize64
           (mkUnpickler (pyb "K" ++ [x02] ++ pyb "b.") [VObj 0] [] ∅
              [FakeObject.mk (py "m") (py "C") [] VNone] false 0)
           _ 0%nat (FakeObject.mk (py "m") (py "C") [] VNone)).
  - apply (run_reaches maxsize64 2). reflexivity.
  - reflexivity.
Defined.

(** ** The dump driver *)

Section DriverFacts.
Variable maxsize : Z.
Variable fnmatch : list Z -> list Z -> bool.
Variable pprint : list FakeObject.t -> Value -> list (list Z) * Outcome unit.
Variable files : gmap (list Z) FileNode.

Lemma main_plain_locator (prog fname : list Z) (output_stream : option nat) :
  contains 64 fname = false ->
  main maxsize fnmatch pprint files [prog; fname] output_stream
  = match files !! fname with
    | None => ([], Raise (FileNotFoundError fname))
    | Some node =>
        let '(evs, r) := dump maxsize pprint (raw node) output_stream in
        (OpenFile fname :: evs, _ ← r; Ok 0)
    end.
Proof.
  intros H. unfold main. cbn [len length Z.of_nat nth].
  change (negb (Z.of_nat 2 =? 2)) with false. cbn iota. by rewrite H.
Qed.

(** [dump] builds its unpickler without the leniency flag, so the
    command line never tolerates invalid UTF-8: a file that starts with
    a string opcode whose payload does not decode makes [main] fail
    with the decode error after opening the file, and nothing is written
    to the sink, whatever the printer is. *)
Theorem main_never_tolerates_invalid_utf8
    (prog fname : list Z) (node : FileNode) (output_stream : option nat)
    (b0 b1 b2 b3 : byte) (tail : list byte) (strlen : Z) (exn : UnicodeDecodeError) :
  contains 64 fname = false ->
  files !! fname = Some node ->
  raw node = "X"%byte :: b0 :: b1 :: b2 :: b3 :: tail ->
  unpack_le32 [b0; b1; b2; b3] = Some strlen ->
  strlen <= maxsize ->
  utf8_decode SurrogatePass (take strlen tail) = DecodeFailed exn ->
  main maxsize fnmatch pprint files [prog; fname] output_stream
  = ([OpenFile fname], Raise (UnicodeDecodeErrorExn exn)).
Proof.
  intros Hat Hf Hraw Hlen Hmax Hdec.
  rewrite main_plain_locator by exact Hat. rewrite Hf. unfold dump.
  rewrite (load_raise maxsize _ (UnicodeDecodeErrorExn exn)); [reflexivity|].
  unfold step. cbn [input DumpUnpickler]. rewrite Hraw. cbn [dispatch].
  unfold continue.
  rewrite (load_binunicode_unfold maxsize _ b0 b1 b2 b3 tail strlen);
    [|reflexivity|exact Hlen|exact Hmax].
  rewrite Hdec. reflexivity.
Qed.

(** The events of [dump] are writes to the given sink. *)
Lemma dump_events (in_stream : list byte) (out : option nat) :
  Forall (fun e => exists t, e = Write out t) (dump maxsize pprint in_stream out).1.
Proof.
  unfold dump.
  destruct (load maxsize (DumpUnpickler in_stream false)) as [[value u]|exn|w];
    simpl; try constructor.
  destruct (pprint (heap u) value) as [texts r]. simpl.
  apply Forall_forall. intros e He. apply list_elem_of_In, in_map_iff in He.
  destruct He as (t & <- & _). eauto.
Qed.

Lemma scan_members_shape (mname : list Z) (i : nat) (infos : list ZipInfo)
    (out : option nat) :
  scan_members maxsize fnmatch pprint mname i infos out = ([], Ok false)
  \/ exists j info,
       scan_members maxsize fnmatch pprint mname i infos out
       = (OpenMember j (filename info) :: (dump maxsize pprint (member_bytes info) out).1,
          _ ← (dump maxsize pprint (member_bytes info) out).2; Ok true).
Proof.
  revert i. induction infos as [|m infos IH]; intros i; simpl; [by left|].
  destruct (fnmatch (filename m) mname); [|apply IH].
  right. exists i, m. by destruct (dump maxsize pprint (member_bytes m) out).
Qed.

Lemma main_zip_shape (zfname mname : list Z) (out : option nat) :
  main_shape maxsize pprint out (main_zip maxsize fnmatch pprint files zfname mname out).
Proof.
  unfold main_zip.
  destruct (files !! zfname) as [node|]; [|constructor].
  destruct (archive node) as [infos|]; [|constructor].
  destruct (negb (contains 42 mname)).
  - destruct (getinfo mname infos) as [[i info]|]; [|constructor].
    pose proof (shape_member maxsize pprint out zfname i (filename info) (member_bytes info)) as S.
    by destruct (dump maxsize pprint (member_bytes info) out).
  - destruct (scan_members_shape mname 0 infos out) as [->|(j & info & ->)].
    + cbn. constructor.
    + pose proof (shape_member maxsize pprint out zfname j (filename info) (member_bytes info)) as S.
      destruct (dump maxsize pprint (member_bytes info) out) as [evs [v|e|w]]; exact S.
Qed.

Lemma main_two_arguments_shape (argv : list (list Z)) (out : option nat) :
  length argv = 2%nat ->
  main_shape maxsize pprint out (main maxsize fnmatch pprint files argv out).
Proof.
  intros Hlen. unfold main, len. rewrite Hlen.
  change (negb (Z.of_nat 2 =? 2)) with false. cbn iota.
  destruct (negb (contains 64 (nth 1 argv []))).
  - destruct (files !! nth 1 argv []) as [node|]; [|constructor].
    pose proof (shape_file maxsize pprint out (nth 1 argv []) (raw node)) as S.
    by destruct (dump maxsize pprint (raw node) out).
  - destruct (split_once 64 (nth 1 argv [])) as [[zfname mname]|]; [|constructor].
    apply main_zip_shape.
Qed.

Lemma count_open_dump (bs : list byte) (out : option nat) :
  filter is_open (dump maxsize pprint bs out).1 = [].
Proof.
  pose proof (dump_events bs out) as H.
  induction H as [|e evs [t ->] _ IH]; [reflexivity|].
  rewrite filter_cons. simpl. exact IH.
Qed.

(** [main] returns only two statuses.  It returns 2 exactly for a wrong
    argument count without a sink, having opened nothing; and when it
    returns 0 it was given one locator and has opened exactly one stream
    (a file or an archive member) to dump. *)
Theorem main_exit_status (argv : list (list Z)) (out : option nat)
    (evs : list Event) (n : Z) :
  main maxsize fnmatch pprint files argv out = (evs, Ok n) ->
  (n = 2 /\ length argv <> 2%nat /\ out = None /\ filter is_open evs = [])
  \/ (n = 0 /\ length argv = 2%nat /\ length (filter is_open evs) = 1%nat).
Proof.
  intros H. destruct (decide (length argv = 2%nat)) as [Hlen|Hlen].
  - right. pose proof (main_two_arguments_shape argv out Hlen) as S.
    rewrite H in S. remember (evs, Ok n) as p eqn:Ep.
    destruct S as [e0|z e0|f bs|z i nm bs]; inversion Ep as [[He Hr]]; clear Ep.
    + destruct (dump maxsize pprint bs out).2; inversion Hr; subst.
      repeat split; [done|]. rewrite filter_cons. simpl.
      by rewrite count_open_dump.
    + destruct (dump maxsize pprint bs out).2; inversion Hr; subst.
      repeat split; [done|]. rewrite !filter_cons. simpl.
      by rewrite count_open_dump.
  - left. unfold main, len in H.
    destruct (Z.eqb_spec (Z.of_nat (length argv)) 2) as [E|E]; [lia|].
    cbn [negb] in H. destruct out; inversion H; subst. repeat split; try done.
Qed.

(** However a run of [main] ends, it has opened at most one stream. *)
Theorem main_opens_at_most_one_stream (argv : list (list Z)) (out : option nat) :
  (length (filter is_open (main maxsize fnmatch pprint files argv out).1) <= 1)%nat.
Proof.
  destruct (decide (length argv = 2%nat)) as [Hlen|Hlen].
  - pose proof (main_two_arguments_shape argv out Hlen) as S.
    destruct S; simpl; try lia;
      rewrite ?filter_cons; simpl; rewrite count_open_dump; simpl; lia.
  - unfold main, len.
    destruct (Z.eqb_spec (Z.of_nat (length argv)) 2) as [E|E]; [lia|].
    cbn [negb]. destruct out; simpl; lia.
Qed.

(** Output discipline of [main]: every dump text goes to the sink it was
    given ([sys.stdout] when there is none), and the error stream is
    written only for a wrong argument count without a sink. *)
Theorem main_output_discipline (argv : list (list Z)) (out : option nat) (e : Event) :
  In e (main maxsize fnmatch pprint files argv out).1 ->
  match e with
  | Write sink _ => sink = out /\ length argv = 2%nat
  | StderrWrite _ => out = None /\ length argv <> 2%nat
  | _ => length argv = 2%nat
  end.
Proof.
  intros He. destruct (decide (length argv = 2%nat)) as [Hlen|Hlen].
  - pose proof (main_two_arguments_shape argv out Hlen) as S.
    assert (Hd : forall bs, In e (dump maxsize pprint bs out).1 ->
                            match e with
                            | Write sink _ => sink = out /\ length argv = 2%nat
                            | StderrWrite _ => out = None /\ length argv <> 2%nat
                            | _ => length argv = 2%nat
                            end).
    { intros bs Hin. pose proof (dump_events bs out) as F.
      rewrite Forall_forall in F. apply list_elem_of_In in Hin.
      destruct (F _ Hin) as [t ->]. done. }
    destruct S as [e0|z e0|f bs|z i nm bs]; simpl in He.
    + done.
    + destruct He as [<-|[]]. done.
    + destruct He as [<-|Hin]; [done | by eapply Hd].
    + destruct He as [<-|[<-|Hin]]; [done | done | by eapply Hd].
  - unfold main, len in He.
    destruct (Z.eqb_spec (Z.of_nat (length argv)) 2) as [E|E]; [lia|].
    cbn [negb] in He. destruct out; simpl in He; [done|].
    unfold usage in He. simpl in He.
    repeat (destruct He as [<-|He]; [done|]). done.
Qed.
End DriverFacts.

Lemma main_never_tolerates_invalid_utf8_witness :
  main maxsize64 fnmatch_posix pprint_fits sample_files_bad
    [py "show_pickle"; py "bad.pkl"] (Some 1%nat)
  = ([OpenFile (py "bad.pkl")],
     Raise (UnicodeDecodeErrorExn (mkUDE 255 0 1 InvalidStartByte))).
Proof.
  apply (main_never_tolerates_invalid_utf8 maxsize64 fnmatch_posix pprint_fits
           sample_files_bad (py "show_pickle") (py "bad.pkl")
           (mkFileNode (binunicode [xff] ++ pyb ".") None) (Some 1%nat)
           x01 x00 x00 x00 [xff; "."%byte] 1 (mkUDE 255 0 1 InvalidStartByte));
    [reflexivity | reflexivity | reflexivity | reflexivity
    | unfold maxsize64; lia | reflexivity].
Defined.

Lemma main_exit_status_witness :
  (0 = 2 /\ length [py "show_pickle"; py "plain.pkl"] <> 2%nat /\ Some 1%nat = None
   /\ filter is_open [OpenFile (py "plain.pkl"); Write (Some 1%nat) (py "7");
                      Write (Some 1%nat) [10]] = [])
  \/ (0 = 0 /\ length [py "show_pickle"; py "plain.pkl"] = 2%nat
      /\ length (filter is_open [OpenFile (py "plain.pkl"); Write (Some 1%nat) (py "7");
                                 Write (Some 1%nat) [10]]) = 1%nat).
Proof.
  apply (main_exit_status maxsize64 fnmatch_posix pprint_fits sample_files
           [py "show_pickle"; py "plain.pkl"] (Some 1%nat)).
  reflexivity.
Defined.

Lemma main_output_discipline_witness :
  Some 1%nat = Some 1%nat /\ length [py "show_pickle"; py "plain.pkl"] = 2%nat.
Proof.
  apply (main_output_discipline maxsize64 fnmatch_posix pprint_fits sample_files
           [py "show_pickle"; py "plain.pkl"] (Some 1%nat) (Write (Some 1%nat) (py "7"))).
  vm_compute. auto.
Defined.

Section LocatorFacts.
Variable maxsize : Z.
Variable fnmatch : list Z -> list Z -> bool.
Variable pprint : list FakeObject.t -> Value -> list (list Z) * Outcome unit.
Variable files : gmap (list Z) FileNode.

Lemma getinfo_from_absent (i : nat) (name : list Z) (infos : list ZipInfo) :
  (forall m, In m infos -> filename m <> name) ->
  getinfo_from i name infos = None.
Proof.
  revert i. induction infos as [|m infos IH]; intros i H; simpl; [done|].
  rewrite IH by (intros; apply H; simpl; auto).
  destruct (decide (filename m = name)) as [E|E]; [|done].
  exfalso. apply (H m); simpl; auto.
Qed.

Lemma getinfo_from_last (i : nat) (name : list Z) (before after : list ZipInfo)
    (info : ZipInfo) :
  filename info = name ->
  (forall m, In m after -> filename m <> name) ->
  getinfo_from i name (before ++ info :: after) = Some ((i + length before)%nat, info).
Proof.
  intros Hn Ha. revert i. induction before as [|m before IH]; intros i; simpl.
  - rewrite getinfo_from_absent by exact Ha.
    destruct (decide (filename info = name)); [|done]. by rewrite Nat.add_0_r.
  - rewrite IH. do 2 f_equal. lia.
Qed.

(** A member spec without [*] is looked up by its exact name.  When no
    member of the archive has that name, [main] fails with [KeyError]
    on the name, having only opened the archive.  When some have it,
    [main] dumps the one stored last under that name and no other. *)
Theorem exact_member_lookup (prog zfname mname : list Z) (node : FileNode)
    (infos : list ZipInfo) (output_stream : option nat) :
  contains 64 zfname = false ->
  contains 42 mname = false ->
  files !! zfname = Some node ->
  archive node = Some infos ->
  ((forall m, In m infos -> filename m <> mname) ->
     main maxsize fnmatch pprint files [prog; zfname ++ 64 :: mname] output_stream
     = ([OpenArchive zfname], Raise (KeyError mname)))
  /\ (forall before info after,
        infos = before ++ info :: after ->
        filename info = mname ->
        (forall m, In m after -> filename m <> mname) ->
        main maxsize fnmatch pprint files [prog; zfname ++ 64 :: mname] output_stream
        = (let '(evs, r) := dump maxsize pprint (member_bytes info) output_stream in
           (OpenArchive zfname :: OpenMember (length before) mname :: evs,
            _ ← r; Ok 0))).
Proof.
  intros Hz Hm Hf Ha. rewrite main_archive_locator by exact Hz.
  unfold main_zip. rewrite Hf, Ha, Hm. cbn [negb]. unfold getinfo. split.
  - intros Habs. by rewrite getinfo_from_absent.
  - intros before info after -> Hn Hafter.
    rewrite (getinfo_from_last 0 mname before after info Hn Hafter).
    cbn [Nat.add]. rewrite Hn. reflexivity.
Qed.
End LocatorFacts.

Lemma exact_member_lookup_witness :
  main maxsize64 fnmatch_posix pprint_fits sample_files_dup
    [py "show_pickle"; py "d.zip@x.pkl"] None
  = ([OpenArchive (py "d.zip"); OpenMember 2 (py "x.pkl");
      Write None (py "m.C()"); Write None [10]], Ok 0).
Proof.
  pose proof (exact_member_lookup maxsize64 fnmatch_posix pprint_fits sample_files_dup
                (py "show_pickle") (py "d.zip") (py "x.pkl")
                (mkFileNode (pyb "PK")
                   (Some [ mkZipInfo (py "x.pkl") stream_seven;
                           mkZipInfo (py "y.pkl") stream_seven;
                           mkZipInfo (py "x.pkl") stream_m_C ]))
                _ None eq_refl eq_refl eq_refl eq_refl) as [_ Hlast].
  apply (Hlast [mkZipInfo (py "x.pkl") stream_seven; mkZipInfo (py "y.pkl") stream_seven]
           (mkZipInfo (py "x.pkl") stream_m_C) [] eq_refl eq_refl).
  intros m [].
Defined.

(** ** From the stream to the text *)

(** A class applied to no arguments, with no state set afterwards, is
    shown as its module, a dot, its name and an empty pair of
    parentheses: dumping the stream GLOBAL, EMPTY_TUPLE, REDUCE, STOP
    writes that text and a newline to the sink and returns the
    instance. *)
Theorem dump_shows_empty_call (maxsize : Z) (out : option nat)
    (mline nline : list byte) (module name : list Z) :
  (forall b, In b mline -> bv b <> 10) ->
  (forall b, In b nline -> bv b <> 10) ->
  utf8_decode Strict mline = Decoded module ->
  utf8_decode Strict nline = Decoded name ->
  dump maxsize pprint_fits ("c"%byte :: mline ++ x0a :: nline ++ x0a :: pyb ")R.") out
  = ([Write out (module ++ py "." ++ name ++ py "()"); Write out [10]], Ok (VObj 0)).
Proof.
  intros Hm Hn Dm Dn. unfold dump.
  erewrite load_next; cycle 1.
  { unfold step. cbn [input DumpUnpickler dispatch continue].
    rewrite (load_global_app mline nline (pyb ")R.") module name) by assumption.
    reflexivity. }
  reflexivity.
Qed.

Lemma dump_shows_empty_call_witness :
  dump maxsize64 pprint_fits
    ("c"%byte :: pyb "torch" ++ x0a :: pyb "Size" ++ x0a :: pyb ")R.") None
  = ([Write None (py "torch" ++ py "." ++ py "Size" ++ py "()"); Write None [10]],
     Ok (VObj 0)).
Proof.
  apply (dump_shows_empty_call maxsize64 None (pyb "torch") (pyb "Size")
           (py "torch") (py "Size")).
  - intros b Hb. simpl in Hb.
    repeat (destruct Hb as [<-|Hb]; [vm_compute; discriminate|]). destruct Hb.
  - intros b Hb. simpl in Hb.
    repeat (destruct Hb as [<-|Hb]; [vm_compute; discriminate|]). destruct Hb.
  - reflexivity.
  - reflexivity.
Defined.

(** ** The build driver *)

Section PreBuildFacts.
Variable World : Type.
Variable dirname : list Z -> list Z.
Variable split : list Z -> list (list Z).
Variable makedirs : list Z -> World -> World * Outcome unit.
Variable subprocess_run : list (list Z) -> World -> World * Outcome Z.

(** An entry whose output does not mention "flash-attention" is passed
    over without any effect: no print, no directory, no compiler call,
    and its "command" is not even looked up, so it may be missing. The
    run is the same as without that entry. *)
Theorem other_outputs_are_skipped
    (before after : list (gmap (list Z) (list Z)))
    (command : gmap (list Z) (list Z)) (output : list Z) (w : World) :
  command !! py "output" = Some output ->
  is_infix (py "flash-attention") output = false ->
  compile_all World dirname split makedirs subprocess_run (before ++ command :: after) w
  = compile_all World dirname split makedirs subprocess_run (before ++ after) w.
Proof.
  intros Ho Hno. revert w.
  induction before as [|c before IH]; intros w; cbn [app compile_all].
  - rewrite Ho, Hno. reflexivity.
  - destruct (c !! py "output") as [o|]; [|reflexivity].
    destruct (is_infix (py "flash-attention") o); [|apply IH].
    destruct (c !! py "command") as [cmd|]; [|reflexivity].
    destruct (makedirs (dirname o) w) as [w1 [[]|e|b]]; try reflexivity.
    destruct (subprocess_run (split cmd) w1) as [w2 [rc|e|b]]; try reflexivity.
    rewrite IH. reflexivity.
Qed.

End PreBuildFacts.

Lemma other_outputs_are_skipped_witness :
  compile_all nat dirname_relative split_spaces sample_makedirs sample_run sample_database 0%nat
  = compile_all nat dirname_relative split_spaces sample_makedirs sample_run
      [ {[ py "output" := py "build/flash-attention/bad.o";
           py "command" := py "nvcc -c bad.cu" ]};
        {[ py "output" := py "build/flash-attention/ok.o";
           py "command" := py "nvcc  -c ok.cu" ]} ] 0%nat.
Proof.
  apply (other_outputs_are_skipped nat dirname_relative split_spaces sample_makedirs
           sample_run
           [ {[ py "output" := py "build/flash-attention/bad.o";
                py "command" := py "nvcc -c bad.cu" ]} ]
           [ {[ py "output" := py "build/flash-attention/ok.o";
                py "command" := py "nvcc  -c ok.cu" ]} ]
           {[ py "output" := py "build/other/x.o" ]} (py "build/other/x.o") 0%nat);
    reflexivity.
Defined.


(** On a host where making the directory with the empty name raises, an
    output without a directory part stops the run there: the later
    entry is not compiled. *)
Example makedirs_failure_stops_the_run :
  compile_all nat dirname_relative split_spaces strict_makedirs strict_run
    [ {[ py "output" := py "flash-attention.o"; py "command" := py "nvcc -c a.cu" ]};
      {[ py "output" := py "build/flash-attention/ok.o";
         py "command" := py "nvcc -c ok.cu" ]} ] 0%nat
  = ([ Print (py "Compiling flash-attention.o with command: nvcc -c a.cu");
       Makedirs [] ],
     0%nat, Raise (FileNotFoundError [])).
Proof. vm_compute. reflexivity. Qed.

(** The sample run: the first compilation fails, the driver says so and
    still compiles the last entry; the entry in between leaves no
    trace. *)
Example sample_build :
  (compile_all nat dirname_relative split_spaces sample_makedirs sample_run
     sample_database 0%nat)
  = ([ Print (py "Compiling build/flash-attention/bad.o with command: nvcc -c bad.cu");
       Makedirs (py "build/flash-attention");
       Run [py "nvcc"; py "-c"; py "bad.cu"];
       Print (py "Failed to compile build/flash-attention/bad.o, command: nvcc -c bad.cu");
       Print (py "Compiling build/flash-attention/ok.o with command: nvcc  -c ok.cu");
       Makedirs (py "build/flash-attention");
       Run [py "nvcc"; py "-c"; py "ok.cu"] ],
     2%nat, Ok tt).
Proof. vm_compute. reflexivity. Qed.
